(** * Maijjd API backend: request pipeline and catalog routes

    A shallow embedding of the Express application (the server entry file
    with its middleware chain, the software-analysis endpoint, the error
    responder and the 404 handler) and of [routes/services.js] (the
    catalog router), followed by the properties checked against it.

    JavaScript values are embedded as a small value type, request headers
    and the rate-limit stores as finite maps, strings as [string] whose
    characters are read as code units below 256. *)

From Stdlib Require Import ZArith QArith Qround String Ascii List Bool Lia Lqa.
From stdpp Require Import gmap strings pretty.
Import ListNotations.

#[local] Set Warnings "-register-all".
Local Open Scope string_scope.
Local Open Scope Z_scope.

(* ===================================================================== *)
(** ** JavaScript values and the built-ins the sources use *)
(* ===================================================================== *)

Module JS.

(** Values that flow through the handlers.  Numbers are kept exact
    (rationals) next to [JNaN]; [JFun] stands for a built-in function
    object and [JObjectPrototype] for [Object.prototype] itself, both
    reachable through property lookup on an object literal. *)
Inductive jsval : Type :=
| JUndefined
| JNull
| JBool (b : bool)
| JNaN
| JNum (q : Q)
| JStr (s : string)
| JArr (elems : list jsval)
| JObj (props : list (string * jsval))
| JFun (name : string)
| JObjectPrototype.

Definition JInt (z : Z) : jsval := JNum (inject_Z z).

(** ToBoolean. *)
Definition truthy (v : jsval) : bool :=
  match v with
  | JUndefined | JNull | JNaN => false
  | JBool b => b
  | JNum q => negb (Qeq_bool q 0)
  | JStr s => negb (String.eqb s "")
  | JArr _ | JObj _ | JFun _ | JObjectPrototype => true
  end.

(** [a || b]. *)
Definition js_or (a b : jsval) : jsval := if truthy a then a else b.

(** Own properties of an object literal, in source order. *)
Fixpoint own_property (props : list (string * jsval)) (k : string) : option jsval :=
  match props with
  | [] => None
  | (k', v) :: rest => if String.eqb k' k then Some v else own_property rest k
  end.

(** The properties every object literal inherits from [Object.prototype]. *)
Definition object_prototype_methods : list string :=
  [ "hasOwnProperty"; "isPrototypeOf"; "propertyIsEnumerable";
    "toLocaleString"; "toString"; "valueOf";
    "__defineGetter__"; "__defineSetter__";
    "__lookupGetter__"; "__lookupSetter__" ].

Definition object_prototype_get (k : string) : jsval :=
  if String.eqb k "constructor" then JFun "Object"
  else if String.eqb k "__proto__" then JObjectPrototype
  else if existsb (String.eqb k) object_prototype_methods then JFun k
  else JUndefined.

(** [o[k]] for an object literal [o]: own property first, then the
    prototype chain. *)
Definition get (props : list (string * jsval)) (k : string) : jsval :=
  match own_property props k with
  | Some v => v
  | None => object_prototype_get k
  end.

(** [v.k] for any value the handlers build; only object literals carry
    named fields here. *)
Definition field (v : jsval) (k : string) : jsval :=
  match v with
  | JObj props => get props k
  | JObjectPrototype => object_prototype_get k
  | _ => JUndefined
  end.

(** [xs.includes(v)] for an array of strings: SameValueZero makes only a
    string equal to a string. *)
Definition includes_value (xs : list string) (v : jsval) : bool :=
  match v with
  | JStr s => existsb (String.eqb s) xs
  | _ => false
  end.

(** What [JSON.stringify] keeps of a value: [None] when the value is
    dropped from an enclosing object ([undefined], functions); [NaN]
    becomes [null]; dropped array elements become [null]. *)
Fixpoint to_wire (v : jsval) : option jsval :=
  match v with
  | JUndefined | JFun _ => None
  | JNaN => Some JNull
  | JArr elems =>
      Some (JArr (map (fun x => match to_wire x with
                                | Some w => w
                                | None => JNull
                                end) elems))
  | JObj props =>
      Some (JObj ((fix keep (ps : list (string * jsval)) : list (string * jsval) :=
                     match ps with
                     | [] => []
                     | (k, x) :: rest =>
                         match to_wire x with
                         | Some w => (k, w) :: keep rest
                         | None => keep rest
                         end
                     end) props))
  | JObjectPrototype => Some (JObj [])
  | other => Some other
  end.

(** *** Strings *)

Definition code (c : ascii) : Z := Z.of_nat (nat_of_ascii c).

(** [s.includes(t)]. *)
Fixpoint includes (s t : string) : bool :=
  String.prefix t s ||
  match s with
  | EmptyString => false
  | String _ rest => includes rest t
  end.

Definition lower_char (c : ascii) : ascii :=
  let n := code c in
  if ((65 <=? n) && (n <=? 90)) ||
     ((192 <=? n) && (n <=? 222) && negb (n =? 215))
  then ascii_of_nat (Z.to_nat (n + 32))
  else c.

(** [s.toLowerCase()] on code units below 256. *)
Fixpoint toLowerCase (s : string) : string :=
  match s with
  | EmptyString => EmptyString
  | String c rest => String (lower_char c) (toLowerCase rest)
  end.

(** [s.substr(start, len)] for non-negative arguments. *)
Definition substr (start len : nat) (s : string) : string :=
  String.substring start len s.

(** *** parseInt *)

Definition is_whitespace (c : ascii) : bool :=
  let n := code c in
  ((9 <=? n) && (n <=? 13)) || (n =? 32) || (n =? 160).

Fixpoint trim_start (s : string) : string :=
  match s with
  | EmptyString => EmptyString
  | String c rest => if is_whitespace c then trim_start rest else s
  end.

Definition digit_value (c : ascii) : option Z :=
  let n := code c in
  if (48 <=? n) && (n <=? 57) then Some (n - 48)
  else if (97 <=? n) && (n <=? 122) then Some (n - 87)
  else if (65 <=? n) && (n <=? 90) then Some (n - 55)
  else None.

(** Longest prefix of digits below [radix]; [None] when it is empty. *)
Fixpoint parse_digits (radix : Z) (s : string) (acc : option Z) : option Z :=
  match s with
  | EmptyString => acc
  | String c rest =>
      match digit_value c with
      | Some d =>
          if d <? radix
          then parse_digits radix rest
                 (Some (radix * (match acc with Some a => a | None => 0 end) + d))
          else acc
      | None => acc
      end
  end.

Definition strip_sign (s : string) : Z * string :=
  match s with
  | String c rest =>
      if Ascii.eqb c "-" then (-1, rest)
      else if Ascii.eqb c "+" then (1, rest)
      else (1, s)
  | EmptyString => (1, s)
  end.

Definition strip_radix (s : string) : Z * string :=
  match s with
  | String c0 (String c1 rest) =>
      if Ascii.eqb c0 "0" && (Ascii.eqb c1 "x" || Ascii.eqb c1 "X")
      then (16, rest) else (10, s)
  | _ => (10, s)
  end.

(** [parseInt(s)] with no radix argument.  The integer is kept exact:
    the rounding to a double beyond 2^53 and the sign of zero are not
    represented. *)
Definition parseInt (s : string) : jsval :=
  let '(sign, s1) := strip_sign (trim_start s) in
  let '(radix, s2) := strip_radix s1 in
  match parse_digits radix s2 None with
  | None => JNaN
  | Some n => JInt (sign * n)
  end.

(** SameValueZero, the equality of [Set] membership, on the values a
    set of categories can hold; two objects are never the same value
    here. *)
Definition same_value_zero (a b : jsval) : bool :=
  match a, b with
  | JUndefined, JUndefined | JNull, JNull | JNaN, JNaN => true
  | JBool x, JBool y => Bool.eqb x y
  | JNum x, JNum y => Qeq_bool x y
  | JStr x, JStr y => String.eqb x y
  | _, _ => false
  end.

(** [new Set(xs)] keeps the first occurrence of each value, in insertion
    order; [[...set]] lists them in that order. *)
Definition set_add (seen : list jsval) (x : jsval) : list jsval :=
  if existsb (same_value_zero x) seen then seen else (seen ++ [x])%list.

Definition spread_set (xs : list jsval) : list jsval :=
  fold_left set_add xs [].

(** [n.toString()] for an integer. *)
Definition decimal (n : Z) : string := pretty n.

Definition base36_digit (d : N) : ascii :=
  if (d <? 10)%N then ascii_of_N (48 + d) else ascii_of_N (87 + d).

Fixpoint base36_aux (fuel : nat) (n : N) (acc : string) : string :=
  match fuel with
  | O => acc
  | S fuel' =>
      let acc' := String (base36_digit (n mod 36)) acc in
      if (n / 36 =? 0)%N then acc' else base36_aux fuel' (n / 36) acc'
  end.

(** [n.toString(36)] for a non-negative integer; a number has at most
    one base-36 digit per bit, so the fuel suffices. *)
Definition toString36 (n : Z) : string :=
  let m := Z.to_N n in
  base36_aux (S (N.to_nat (N.log2 m))) m EmptyString.

(** The parts of the runtime a handler reads but does not control: the
    clock behind [Date.now()] and [new Date().toISOString()], the draws
    of [Math.random()] (numbered per request) with their base-36
    renderings, and [process.env.NODE_ENV]. *)
Record runtime := {
  now : Z;
  isoNow : string;
  random : nat -> Q;
  randomBase36 : nat -> string;
  NODE_ENV : option string
}.

(** [h || d] for a header or environment value [h] that is a string or
    [undefined]. *)
Definition or_else (h : option string) (d : string) : string :=
  match h with
  | Some v => if String.eqb v "" then d else v
  | None => d
  end.

(** A string-or-undefined as a value. *)
Definition opt_str (h : option string) : jsval :=
  match h with
  | Some v => JStr v
  | None => JUndefined
  end.

(** [process.env.NODE_ENV === mode]. *)
Definition node_env_is (e : runtime) (mode : string) : bool :=
  match NODE_ENV e with
  | Some v => String.eqb v mode
  | None => false
  end.

End JS.

(* ===================================================================== *)
(** ** Requests, responses and the Express response helpers *)
(* ===================================================================== *)

Module Http.
Import JS.

Inductive http_method := GET | HEAD | POST | PUT | DELETE | PATCH | OPTIONS.

(** The fields of a thrown or forwarded error that the error responder
    reads. *)
Record js_error := {
  err_status : option Z;
  err_message : string;
  err_name : string;
  err_stack : option string
}.

(** The error object itself as a value, for [errorResponse.details]. *)
Definition error_object (err : js_error) : jsval :=
  JObj [ ("status", match err_status err with
                    | Some s => JInt s
                    | None => JUndefined
                    end);
         ("message", JStr (err_message err));
         ("name", JStr (err_name err));
         ("stack", opt_str (err_stack err)) ].

(** An inbound request.  [path] holds the decoded path segments,
    [headers] the request headers under their lower-cased names, [body]
    the own properties of what the body parsers leave in [req.body] (the
    empty object when there is no payload; an array payload has none of
    the named fields the handlers read and is represented the same way)
    and [bodyError] the error the parsers forward instead when the
    payload is malformed or too large. *)
Record request := {
  method : http_method;
  path : list string;
  originalUrl : string;
  headers : gmap string string;
  ip : string;
  body : list (string * jsval);
  bodyError : option js_error
}.

(** The two fields the tagging middleware adds to [req].  A stage that
    can run before it sees [option tags], where [None] stands for a
    request on which both fields are still [undefined]. *)
Record tags := {
  requestId : string;
  startTime : Z
}.

(** [req.requestId] as a value. *)
Definition requestId_of (ctx : option tags) : jsval :=
  match ctx with
  | Some t => JStr (requestId t)
  | None => JUndefined
  end.

Inductive payload :=
| NoBody
| Text (s : string)
| Json (v : jsval).

Record response := {
  statusCode : Z;
  resHeaders : gmap string string;
  resBody : payload
}.

(** The response object as Node creates it. *)
Definition fresh : response :=
  {| statusCode := 200; resHeaders := ∅; resBody := NoBody |}.

(** [res.status(n)]. *)
Definition status (n : Z) (res : response) : response :=
  {| statusCode := n; resHeaders := resHeaders res; resBody := resBody res |}.

(** [res.setHeader(k, v)]. *)
Definition setHeader (k v : string) (res : response) : response :=
  {| statusCode := statusCode res;
     resHeaders := <[k := v]> (resHeaders res);
     resBody := resBody res |}.

(** [res.set({k1: v1, ...})]. *)
Definition set (hs : list (string * string)) (res : response) : response :=
  fold_left (fun r kv => setHeader (fst kv) (snd kv) r) hs res.

(** [res.json(v)], as far as the handler decides it: the value becomes
    the body and the content type is filled in when absent.  What
    [res.send] derives from the serialized bytes on the way out --
    [Content-Length], an [ETag] when the handler set none, the 304 answer
    to a matching conditional request -- is not represented: of those two
    headers [resHeaders] holds only what a handler wrote itself. *)
Definition json (v : jsval) (res : response) : response :=
  {| statusCode := statusCode res;
     resHeaders :=
       match resHeaders res !! "Content-Type" with
       | Some _ => resHeaders res
       | None => <["Content-Type" := "application/json; charset=utf-8"]> (resHeaders res)
       end;
     resBody := Json v |}.

(** The JSON body a response was given, if any. *)
Definition sent_json (res : response) : option jsval :=
  match resBody res with
  | Json v => Some v
  | _ => None
  end.

(** Route and mount paths are compared segment by segment, ignoring
    case (Express routing is case-insensitive by default). *)
Definition same_segment (a b : string) : bool :=
  String.eqb (toLowerCase a) (toLowerCase b).

Fixpoint mounted_at (mount segs : list string) : bool :=
  match mount, segs with
  | [], _ => true
  | m :: mount', s :: segs' => same_segment m s && mounted_at mount' segs'
  | _ :: _, [] => false
  end.

(** The rest of the path below a mount point. *)
Fixpoint below (mount segs : list string) : list string :=
  match mount, segs with
  | _ :: mount', _ :: segs' => below mount' segs'
  | _, _ => segs
  end.

(** What a route table does with a request: answer it, throw, or leave
    it to the next layer. *)
Inductive outcome :=
| Sent (res : response)
| Threw (err : js_error)
| NoMatch.

End Http.

(* ===================================================================== *)
(** ** express-rate-limit *)
(* ===================================================================== *)

Module RateLimit.
Import JS Http.

(** The options the application passes to [rateLimit({...})].  [skip]
    defaults to the constant [false] when the caller gives none. *)
Record options := {
  windowMs : Z;
  max : Z;
  message : jsval;
  skip : request -> bool
}.

Definition never (_ : request) : bool := false.

(** One client's entry in a limiter's memory store. *)
Record client := {
  totalHits : Z;
  resetTime : Z
}.

(** Counting a hit: a client without an entry, or whose window has
    expired, starts a new window. *)
Definition increment (o : options) (clock : Z) (store : gmap string client)
    (key : string) : client :=
  match store !! key with
  | Some c =>
      if resetTime c <=? clock
      then {| totalHits := 1; resetTime := clock + windowMs o |}
      else {| totalHits := totalHits c + 1; resetTime := resetTime c |}
  | None => {| totalHits := 1; resetTime := clock + windowMs o |}
  end.

(** The middleware [rateLimit(o)], as the package documents it: a
    skipped request passes without touching the store; any other request
    is counted under the client address and, once the count exceeds
    [max], answered with status 429 and the configured message.  The
    result is the new store and the rejection, if any.  The informative
    [RateLimit-*] headers the package adds are left out. *)
Definition rateLimit (o : options) (clock : Z) (store : gmap string client)
    (req : request) (res : response) : gmap string client * option response :=
  if skip o req then (store, None)
  else
    let c := increment o clock store (ip req) in
    let store' := <[ip req := c]> store in
    if max o <? totalHits c
    then (store', Some (json (message o) (status 429 res)))
    else (store', None).

End RateLimit.

(* ===================================================================== *)
(** ** routes/services.js: the catalog router *)
(* ===================================================================== *)

Module Services.
Import JS Http.

(** [s.category], [s.id] on a catalog entry. *)
Definition category_of (s : jsval) : jsval := field s "category".
Definition id_of (s : jsval) : jsval := field s "id".

Definition dquote : string := String (ascii_of_nat 34) EmptyString.

(** *** GET /test *)

Definition test (e : runtime) (res : response) : response :=
  json (JObj [ ("message", JStr "Services route is working!");
               ("timestamp", JStr (isoNow e));
               ("route", JStr "/api/services/test") ]) res.

(** *** GET / *)

(** The [services] array of the list handler. *)
Definition services : list jsval :=
    [ JObj
        [ ("id", JInt 1);
          ("name", JStr "Custom Software Development");
          ("description",
           JStr "Tailored software solutions designed to meet your specific business requirements and workflows. We specialize in creating scalable, maintainable applications that drive business growth.");
          ("price", JStr "Starting from $5,000");
          ("category", JStr "Development");
          ("features", JArr
              [ JStr "Web Applications (React, Angular, Vue.js)";
                JStr "Desktop Applications (Windows, macOS, Linux)";
                JStr "Mobile Apps (iOS, Android, Cross-platform)";
                JStr "API Development (REST, GraphQL, Microservices)";
                JStr "System Integration & Legacy Modernization";
                JStr "Cloud-Native Applications";
                JStr "Progressive Web Apps (PWA)";
                JStr "Real-time Applications";
                JStr "E-commerce Solutions";
                JStr "Enterprise Resource Planning (ERP)" ]);
          ("icon", JStr "code");
          ("color", JStr "blue");
          ("deliveryTime", JStr "4-12 weeks");
          ("technologies", JArr
              [ JStr "React";
                JStr "Node.js";
                JStr "Python";
                JStr "Java";
                JStr "C#";
                JStr "Flutter";
                JStr "React Native" ]) ];
      JObj
        [ ("id", JInt 2);
          ("name", JStr "Database Management & Analytics");
          ("description",
           JStr "Comprehensive database solutions with advanced analytics, reporting, and data management capabilities. We help organizations unlock the full potential of their data.");
          ("price", JStr "Starting from $3,000");
          ("category", JStr "Data");
          ("features", JArr
              [ JStr "Database Design & Architecture";
                JStr "Data Migration & ETL Processes";
                JStr "Performance Optimization & Tuning";
                JStr "Backup & Disaster Recovery";
                JStr "Data Analytics & Business Intelligence";
                JStr "Data Warehousing Solutions";
                JStr "Real-time Data Processing";
                JStr "Data Quality Management";
                JStr "Compliance & Data Governance";
                JStr "Machine Learning Integration" ]);
          ("icon", JStr "database");
          ("color", JStr "green");
          ("deliveryTime", JStr "2-8 weeks");
          ("technologies", JArr
              [ JStr "PostgreSQL";
                JStr "MySQL";
                JStr "MongoDB";
                JStr "Redis";
                JStr "Elasticsearch";
                JStr "Apache Kafka" ]) ];
      JObj
        [ ("id", JInt 3);
          ("name", JStr "System Integration & API Development");
          ("description",
           JStr "Seamless integration of existing systems and third-party applications for improved efficiency and data flow across your organization.");
          ("price", JStr "Starting from $4,000");
          ("category", JStr "Integration");
          ("features", JArr
              [ JStr "API Development & Management";
                JStr "Legacy System Integration";
                JStr "Cloud Integration (AWS, Azure, GCP)";
                JStr "Workflow Automation & Orchestration";
                JStr "Data Synchronization & Mapping";
                JStr "Third-party Service Integration";
                JStr "Webhook Implementation";
                JStr "Message Queue Systems";
                JStr "Real-time Data Streaming";
                JStr "API Gateway & Security" ]);
          ("icon", JStr "settings");
          ("color", JStr "purple");
          ("deliveryTime", JStr "3-10 weeks");
          ("technologies", JArr
              [ JStr "Node.js";
                JStr "Python";
                JStr "Java";
                JStr "Apache Kafka";
                JStr "RabbitMQ";
                JStr "Docker" ]) ];
      JObj
        [ ("id", JInt 4);
          ("name", JStr "User Management & Security Systems");
          ("description",
           JStr "Comprehensive user management and access control systems for enhanced security, compliance, and user experience.");
          ("price", JStr "Starting from $2,500");
          ("category", JStr "Security");
          ("features", JArr
              [ JStr "User Authentication & Authorization";
                JStr "Role-based Access Control (RBAC)";
                JStr "Single Sign-On (SSO) & SAML";
                JStr "Multi-factor Authentication (MFA)";
                JStr "User Analytics & Behavior Tracking";
                JStr "Security Auditing & Compliance";
                JStr "Password Management & Policies";
                JStr "Session Management";
                JStr "API Security & Rate Limiting";
                JStr "Data Privacy & GDPR Compliance" ]);
          ("icon", JStr "users");
          ("color", JStr "orange");
          ("deliveryTime", JStr "2-6 weeks");
          ("technologies", JArr
              [ JStr "JWT";
                JStr "OAuth 2.0";
                JStr "SAML";
                JStr "LDAP";
                JStr "Active Directory";
                JStr "Redis" ]) ];
      JObj
        [ ("id", JInt 5);
          ("name", JStr "Advanced Analytics & Business Intelligence");
          ("description",
           JStr "Advanced analytics and real-time reporting solutions for data-driven decision making and business growth.");
          ("price", JStr "Starting from $3,500");
          ("category", JStr "Analytics");
          ("features", JArr
              [ JStr "Business Intelligence Dashboards";
                JStr "Real-time Data Visualization";
                JStr "Custom Report Generation";
                JStr "Advanced Data Analytics";
                JStr "Predictive Analytics & Forecasting";
                JStr "Machine Learning Models";
                JStr "Data Mining & Pattern Recognition";
                JStr "Performance Metrics & KPIs";
                JStr "Interactive Charts & Graphs";
                JStr "Automated Insights & Alerts" ]);
          ("icon", JStr "bar-chart");
          ("color", JStr "pink");
          ("deliveryTime", JStr "3-8 weeks");
          ("technologies", JArr
              [ JStr "Tableau";
                JStr "Power BI";
                JStr "Python";
                JStr "R";
                JStr "Apache Spark";
                JStr "TensorFlow" ]) ];
      JObj
        [ ("id", JInt 6);
          ("name", JStr "Cybersecurity & Compliance Solutions");
          ("description",
           JStr "Enterprise-grade security solutions with advanced threat detection, encryption, and compliance standards.");
          ("price", JStr "Starting from $4,500");
          ("category", JStr "Security");
          ("features", JArr
              [ JStr "Security Auditing & Assessment";
                JStr "Penetration Testing & Vulnerability Scanning";
                JStr "Compliance Management (SOC2, ISO27001)";
                JStr "Data Encryption & Key Management";
                JStr "Security Monitoring & Incident Response";
                JStr "Threat Intelligence & Analysis";
                JStr "Network Security & Firewall Management";
                JStr "Endpoint Protection & Detection";
                JStr "Security Awareness Training";
                JStr "Risk Assessment & Management" ]);
          ("icon", JStr "shield");
          ("color", JStr "red");
          ("deliveryTime", JStr "4-12 weeks");
          ("technologies", JArr
              [ JStr "Wireshark";
                JStr "Nmap";
                JStr "Metasploit";
                JStr "Snort";
                JStr "OSSEC";
                JStr "OpenVAS" ]) ];
      JObj
        [ ("id", JInt 7);
          ("name", JStr "Cloud Infrastructure & DevOps");
          ("description",
           JStr "Cloud infrastructure setup, management, and DevOps automation for scalable, reliable applications.");
          ("price", JStr "Starting from $6,000");
          ("category", JStr "Infrastructure");
          ("features", JArr
              [ JStr "Cloud Architecture Design";
                JStr "Infrastructure as Code (IaC)";
                JStr "CI/CD Pipeline Automation";
                JStr "Container Orchestration (Kubernetes)";
                JStr "Monitoring & Logging Solutions";
                JStr "Auto-scaling & Load Balancing";
                JStr "Disaster Recovery & Backup";
                JStr "Security & Compliance";
                JStr "Cost Optimization";
                JStr "Performance Tuning" ]);
          ("icon", JStr "cloud");
          ("color", JStr "indigo");
          ("deliveryTime", JStr "6-16 weeks");
          ("technologies", JArr
              [ JStr "AWS";
                JStr "Azure";
                JStr "GCP";
                JStr "Docker";
                JStr "Kubernetes";
                JStr "Terraform";
                JStr "Jenkins" ]) ];
      JObj
        [ ("id", JInt 8);
          ("name", JStr "AI & Machine Learning Solutions");
          ("description",
           JStr "Custom AI and machine learning solutions to automate processes, gain insights, and create intelligent applications.");
          ("price", JStr "Starting from $8,000");
          ("category", JStr "AI/ML");
          ("features", JArr
              [ JStr "Custom AI Model Development";
                JStr "Natural Language Processing (NLP)";
                JStr "Computer Vision & Image Recognition";
                JStr "Predictive Analytics & Forecasting";
                JStr "Recommendation Systems";
                JStr "Chatbot & Virtual Assistant Development";
                JStr "Data Preprocessing & Feature Engineering";
                JStr "Model Training & Optimization";
                JStr "AI Integration & APIs";
                JStr "Continuous Learning & Model Updates" ]);
          ("icon", JStr "zap");
          ("color", JStr "yellow");
          ("deliveryTime", JStr "8-20 weeks");
          ("technologies", JArr
              [ JStr "TensorFlow";
                JStr "PyTorch";
                JStr "Scikit-learn";
                JStr "OpenAI";
                JStr "Hugging Face";
                JStr "Python" ]) ];
      JObj
        [ ("id", JInt 9);
          ("name", JStr "Mobile App Development");
          ("description",
           JStr "Native and cross-platform mobile applications with modern UI/UX design and advanced features.");
          ("price", JStr "Starting from $7,000");
          ("category", JStr "Mobile");
          ("features", JArr
              [ JStr "Native iOS & Android Development";
                JStr "Cross-platform Development (React Native, Flutter)";
                JStr "Progressive Web Apps (PWA)";
                JStr "Mobile App Testing & QA";
                JStr "App Store Optimization (ASO)";
                JStr "Push Notifications & Analytics";
                JStr "Offline Functionality";
                JStr "Social Media Integration";
                JStr "Payment Gateway Integration";
                JStr "App Maintenance & Updates" ]);
          ("icon", JStr "smartphone");
          ("color", JStr "teal");
          ("deliveryTime", JStr "6-16 weeks");
          ("technologies", JArr
              [ JStr "Swift";
                JStr "Kotlin";
                JStr "React Native";
                JStr "Flutter";
                JStr "Firebase";
                JStr "AWS Amplify" ]) ];
      JObj
        [ ("id", JInt 10);
          ("name", JStr "E-commerce & Digital Commerce");
          ("description",
           JStr "Complete e-commerce solutions with advanced features, payment processing, and customer management.");
          ("price", JStr "Starting from $9,000");
          ("category", JStr "E-commerce");
          ("features", JArr
              [ JStr "Custom E-commerce Platform Development";
                JStr "Payment Gateway Integration";
                JStr "Inventory Management Systems";
                JStr "Customer Relationship Management";
                JStr "Order Processing & Fulfillment";
                JStr "Multi-store Management";
                JStr "Mobile Commerce Solutions";
                JStr "Analytics & Reporting";
                JStr "Marketing & SEO Tools";
                JStr "Security & PCI Compliance" ]);
          ("icon", JStr "shopping-cart");
          ("color", JStr "cyan");
          ("deliveryTime", JStr "8-20 weeks");
          ("technologies", JArr
              [ JStr "Shopify";
                JStr "WooCommerce";
                JStr "Magento";
                JStr "Node.js";
                JStr "React";
                JStr "Stripe" ]) ] ].

(** The handler of [router.get('/')].  Nothing in its [try] block can
    throw, so the [catch] branch is not represented. *)
Definition list_services (e : runtime) (res : response) : response :=
  let res1 :=
    set [ ("Cache-Control", "no-cache, no-store, must-revalidate, private");
          ("Pragma", "no-cache");
          ("Expires", "0");
          ("ETag", dquote ++ decimal (now e) ++ dquote) ] res in
  json
    (JObj
       [ ("message", JStr "Services retrieved successfully");
         ("data", JArr services);
         ("metadata", JObj
            [ ("ai_compatible", JBool true);
              ("total_services", JInt (Z.of_nat (length services)));
              ("categories", JArr (spread_set (map category_of services)));
              ("ai_enhanced_features", JArr
                 [ JStr "Intelligent Service Matching";
                   JStr "AI-Powered Recommendations";
                   JStr "Predictive Delivery Estimates";
                   JStr "Automated Workflow Integration" ]);
              ("timestamp", JStr (isoNow e));
              ("request_id",
               JStr ("svc_" ++ decimal (now e) ++ "_"
                     ++ substr 2 9 (randomBase36 e 1))) ]) ])
    res1.

(** *** GET /:id *)

(** The mock [service] object of the by-id handler. *)
Definition service (id : string) : jsval :=
  JObj
    [ ("id", parseInt id);
      ("name", JStr "Custom Software Development");
      ("description",
       JStr "Tailored software solutions designed to meet your specific business requirements and workflows. Our experienced development team works closely with you to understand your needs and deliver high-quality, scalable solutions.");
      ("price", JStr "Starting from $5,000");
      ("category", JStr "Development");
      ("features", JArr
          [ JStr "Web Applications";
            JStr "Desktop Applications";
            JStr "Mobile Apps";
            JStr "API Development";
            JStr "System Integration" ]);
      ("process", JArr
          [ JObj
              [ ("step", JInt 1);
                ("title", JStr "Discovery");
                ("description",
                 JStr "We analyze your requirements and create a detailed project plan.") ];
            JObj
              [ ("step", JInt 2);
                ("title", JStr "Design");
                ("description",
                 JStr "We create wireframes and design mockups for your approval.") ];
            JObj
              [ ("step", JInt 3);
                ("title", JStr "Development");
                ("description",
                 JStr "Our team develops your solution using agile methodologies.") ];
            JObj
              [ ("step", JInt 4);
                ("title", JStr "Deployment");
                ("description",
                 JStr "We deploy your solution and provide ongoing support.") ] ]);
      ("technologies", JArr
          [ JStr "React";
            JStr "Node.js";
            JStr "Python";
            JStr "PostgreSQL";
            JStr "MongoDB";
            JStr "AWS" ]);
      ("icon", JStr "code");
      ("color", JStr "blue");
      ("createdAt", JStr "2024-01-01T00:00:00.000Z");
      ("updatedAt", JStr "2024-01-15T10:30:00.000Z") ].

Definition get_service_by_id (id : string) (res : response) : response :=
  json (JObj [ ("message", JStr "Service retrieved successfully");
               ("data", service id) ]) res.

(** *** GET /category/:category *)

(** The [servicesByCategory] object literal: its own properties. *)
Definition servicesByCategory : list (string * jsval) :=
    [ ("development", JArr
          [ JObj
              [ ("id", JInt 1);
                ("name", JStr "Custom Software Development");
                ("description",
                 JStr "Tailored software solutions designed to meet your specific business requirements.");
                ("price", JStr "Starting from $5,000");
                ("category", JStr "Development") ] ]);
      ("data", JArr
          [ JObj
              [ ("id", JInt 2);
                ("name", JStr "Database Management");
                ("description",
                 JStr "Comprehensive database solutions with advanced analytics.");
                ("price", JStr "Starting from $3,000");
                ("category", JStr "Data") ] ]);
      ("integration", JArr
          [ JObj
              [ ("id", JInt 3);
                ("name", JStr "System Integration");
                ("description",
                 JStr "Seamless integration of existing systems and third-party applications.");
                ("price", JStr "Starting from $4,000");
                ("category", JStr "Integration") ] ]);
      ("security", JArr
          [ JObj
              [ ("id", JInt 4);
                ("name", JStr "User Management Systems");
                ("description",
                 JStr "Comprehensive user management and access control systems.");
                ("price", JStr "Starting from $2,500");
                ("category", JStr "Security") ];
            JObj
              [ ("id", JInt 6);
                ("name", JStr "Security Solutions");
                ("description",
                 JStr "Enterprise-grade security solutions with encryption.");
                ("price", JStr "Starting from $4,500");
                ("category", JStr "Security") ] ]);
      ("analytics", JArr
          [ JObj
              [ ("id", JInt 5);
                ("name", JStr "Analytics & Reporting");
                ("description",
                 JStr "Advanced analytics and real-time reporting solutions.");
                ("price", JStr "Starting from $3,500");
                ("category", JStr "Analytics") ] ]) ].

(** [servicesByCategory[category.toLowerCase()] || []]. *)
Definition services_in_category (category : string) : jsval :=
  js_or (get servicesByCategory (toLowerCase category)) (JArr []).

Definition get_services_by_category (category : string) (res : response) : response :=
  json (JObj [ ("message", JStr "Services retrieved successfully");
               ("data", services_in_category category) ]) res.

(** *** The router *)

Inductive route :=
| RTest
| RList
| RById (id : string)
| RByCategory (category : string).

(** Which handler a GET request reaches, by the path below the mount
    point.  Routes are tried in registration order: [/test], [/],
    [/:id], [/category/:category]; a parameter binds one non-empty
    segment. *)
Definition match_route (segs : list string) : option route :=
  match segs with
  | [] => Some RList
  | [s] =>
      if same_segment s "test" then Some RTest
      else if String.eqb s "" then Some RList
      else Some (RById s)
  | [c; s] =>
      if same_segment c "category" && negb (String.eqb s "")
      then Some (RByCategory s) else None
  | _ => None
  end.

Definition router (e : runtime) (req : request) (segs : list string)
    (res : response) : outcome :=
  match method req with
  | GET =>
      match match_route segs with
      | Some RTest => Sent (test e res)
      | Some RList => Sent (list_services e res)
      | Some (RById id) => Sent (get_service_by_id id res)
      | Some (RByCategory category) => Sent (get_services_by_category category res)
      | None => NoMatch
      end
  | _ => NoMatch
  end.

End Services.

(* ===================================================================== *)
(** ** The server: middleware chain, inline endpoints, responders *)
(* ===================================================================== *)

Module Server.
Import JS Http RateLimit.

(** [req.headers[name]]. *)
Definition header (req : request) (name : string) : option string :=
  headers req !! name.

(** *** Rate limiting *)

Definition aiPlatforms : list string :=
  [ "openai.com"; "anthropic.com"; "google.com"; "microsoft.com" ].

(** [req.headers['user-agent']?.includes(platform)]. *)
Definition user_agent_includes (req : request) (platform : string) : jsval :=
  match header req "user-agent" with
  | Some ua => JBool (includes ua platform)
  | None => JUndefined
  end.

(** The [skip] callback of [aiLimiter]. *)
Definition aiLimiter_skip (req : request) : bool :=
  existsb (fun platform =>
             truthy (js_or (user_agent_includes req platform)
                           (opt_str (header req "x-ai-platform"))))
          aiPlatforms.

Definition aiLimiter : options :=
  {| windowMs := 15 * 60 * 1000;
     max := 2000;
     message := JObj [ ("error", JStr "AI Platform rate limit exceeded");
                       ("message", JStr "Please try again later");
                       ("code", JStr "AI_RATE_LIMIT_EXCEEDED");
                       ("retryAfter", JStr "15 minutes") ];
     skip := aiLimiter_skip |}.

Definition standardLimiter : options :=
  {| windowMs := 15 * 60 * 1000;
     max := 1000;
     message := JObj [ ("error", JStr "Rate limit exceeded");
                       ("message", JStr "Please try again later");
                       ("code", JStr "RATE_LIMIT_EXCEEDED");
                       ("retryAfter", JStr "15 minutes") ];
     skip := never |}.

(** The two memory stores, one per limiter instance. *)
Record limiters := {
  aiStore : gmap string client;
  standardStore : gmap string client
}.

(** [app.use(mount, limiter)]: the limiter sees only requests under its
    mount path. *)
Definition use_limiter (mount : list string) (o : options) (clock : Z)
    (store : gmap string client) (req : request) (res : response)
    : gmap string client * option response :=
  if mounted_at mount (path req) then rateLimit o clock store req res
  else (store, None).

(** *** Cross-origin requests *)

Definition is_options (m : http_method) : bool :=
  match m with
  | OPTIONS => true
  | _ => false
  end.

(** [app.use(cors({...}))], registered ahead of the limiters, as far as
    it decides who answers.  The configuration sets neither
    [preflightContinue] nor [optionsSuccessStatus], so cors treats every
    request whose method is OPTIONS as a preflight and ends the response
    itself: status 204, [Content-Length: 0], no body; nothing behind it
    runs.  Every other request is passed on.  The Access-Control headers
    it writes in both cases are among the headers [res] arrives with. *)
Definition cors (req : request) (res : response) : option response :=
  if is_options (method req)
  then Some {| statusCode := 204;
               resHeaders := <["Content-Length" := "0"]> (resHeaders res);
               resBody := NoBody |}
  else None.

(** *** Request tagging and response metadata *)

Definition generateRequestId (e : runtime) : string :=
  substr 2 9 (randomBase36 e 0) ++ "-" ++ toString36 (now e).

(** The logging middleware: [req.requestId] and [req.startTime]. *)
Definition tagging (e : runtime) (req : request) : tags :=
  {| requestId := or_else (header req "x-request-id") (generateRequestId e);
     startTime := now e |}.

(** The metadata middleware; it runs after [tagging]. *)
Definition apiHeaders (ctx : tags) (res : response) : response :=
  let res := setHeader "X-API-Version" "2.0.0" res in
  let res := setHeader "X-API-Platform" "Maijjd-Intelligent-System" res in
  let res := setHeader "X-Content-Type-Options" "nosniff" res in
  let res := setHeader "X-Frame-Options" "DENY" res in
  let res := setHeader "X-XSS-Protection" "1; mode=block" res in
  let res := setHeader "X-Request-ID" (requestId ctx) res in
  let res := setHeader "X-AI-Compatible" "true" res in
  let res := setHeader "X-Data-Format" "JSON" res in
  setHeader "X-Response-Schema" "https://api.maijjd.com/schemas" res.

(** *** POST /api/ai/software-analysis *)

Definition supportedModels : list string :=
  [ "gpt-4"; "claude-3"; "gemini-pro"; "llama-2"; "custom" ].

Definition supportedAnalysisTypes : list string :=
  [ "performance"; "security"; "optimization"; "usage"; "compatibility";
    "scalability" ].

(** [Math.random() * 100]. *)
Definition random_score (e : runtime) (k : nat) : jsval :=
  JNum (random e k * 100)%Q.

(** [Date.now() - req.startTime]. *)
Definition elapsed (e : runtime) (ctx : tags) : jsval :=
  JInt (now e - startTime ctx).

(** The handler.  [req.body] is always an object once the body parsers
    have run, so the destructuring cannot throw and the [catch] branch
    is not represented. *)
Definition software_analysis (e : runtime) (req : request) (ctx : tags)
    (res : response) : response :=
  let software_id := get (body req) "software_id" in
  let analysis_type := get (body req) "analysis_type" in
  let ai_model := get (body req) "ai_model" in
  if negb (truthy software_id) || negb (truthy analysis_type)
     || negb (includes_value supportedAnalysisTypes analysis_type)
  then
    json (JObj [ ("error", JStr "Invalid parameters");
                 ("message",
                  JStr "Missing required parameters or unsupported analysis type");
                 ("supportedTypes", JArr (map JStr supportedAnalysisTypes));
                 ("required", JArr [ JStr "software_id"; JStr "analysis_type" ]) ])
         (status 400 res)
  else
    json
      (JObj
         [ ("software_id", software_id);
           ("analysis_type", analysis_type);
           ("timestamp", JStr (isoNow e));
           ("ai_model", js_or ai_model (JStr "gpt-4"));
           ("analysis", JObj
              [ ("performance_score", random_score e 1);
                ("security_score", random_score e 2);
                ("optimization_potential", random_score e 3);
                ("recommendations", JArr
                   [ JStr "Implement caching for improved performance";
                     JStr "Add input validation for security";
                     JStr "Optimize database queries";
                     JStr "Enable compression for faster responses" ]);
                ("risk_assessment", JObj
                   [ ("level", JStr "low");
                     ("factors", JArr [ JStr "performance"; JStr "security";
                                        JStr "scalability" ]);
                     ("mitigation_strategies", JArr
                        [ JStr "Regular performance monitoring";
                          JStr "Security audits";
                          JStr "Load testing" ]) ]) ]);
           ("confidence", JNum (95 # 100));
           ("processing_time", elapsed e ctx);
           ("metadata", JObj
              [ ("ai_platform", JStr (or_else (header req "x-ai-platform") "unknown"));
                ("request_id", JStr (requestId ctx));
                ("analysis_version", JStr "2.0.0") ]) ])
      res.

(** *** The error responder and the 404 handler *)

(** [err.status >= 500]; an undefined status compares false. *)
Definition server_side (err : js_error) : bool :=
  match err_status err with
  | Some s => 500 <=? s
  | None => false
  end.

(** [err.status || 500]. *)
Definition status_or_500 (err : js_error) : Z :=
  match err_status err with
  | Some s => if s =? 0 then 500 else s
  | None => 500
  end.

Definition errorHandler (e : runtime) (err : js_error) (ctx : option tags)
    (res : response) : response :=
  let errorResponse :=
    [ ("error", JStr "Internal Server Error");
      ("message", if node_env_is e "production"
                  then JStr "Something went wrong"
                  else JStr (err_message err));
      ("code", JStr "INTERNAL_ERROR");
      ("timestamp", JStr (isoNow e));
      ("requestId", requestId_of ctx);
      ("ai", JObj
         [ ("retryable", JBool (server_side err));
           ("suggestedAction",
            JStr (if server_side err then "retry_later" else "check_input"));
           ("errorType", JStr (or_else (Some (err_name err)) "UnknownError")) ]) ] in
  let errorResponse :=
    if node_env_is e "development"
    then (errorResponse ++ [ ("stack", opt_str (err_stack err));
                             ("details", error_object err) ])%list
    else errorResponse in
  json (JObj errorResponse) (status (status_or_500 err) res).

Definition notFound (req : request) (ctx : tags) (res : response) : response :=
  json
    (JObj
       [ ("error", JStr "Not Found");
         ("message", JStr ("Route " ++ originalUrl req ++ " not found"));
         ("code", JStr "ROUTE_NOT_FOUND");
         ("requestId", JStr (requestId ctx));
         ("availableRoutes", JArr
            [ JStr "/api/health";
              JStr "/api/software";
              JStr "/api/auth";
              JStr "/api/services";
              JStr "/api/contact";
              JStr "/api/users";
              JStr "/api/ai/integration";
              JStr "/api/ai/software-analysis";
              JStr "/api/ai/performance-optimization";
              JStr "/api/ai/security-assessment";
              JStr "/api-docs" ]);
         ("ai", JObj
            [ ("suggestions", JArr
                 [ JStr "Check the API documentation at /api-docs";
                   JStr "Verify the endpoint URL";
                   JStr "Ensure proper authentication";
                   JStr "Check request method (GET, POST, etc.)" ]) ]) ])
    (status 404 res).

(** *** The application *)

Fixpoint same_path (route segs : list string) : bool :=
  match route, segs with
  | [], [] => true
  | r :: route', s :: segs' => same_segment r s && same_path route' segs'
  | _, _ => false
  end.

Definition is_post (m : http_method) : bool :=
  match m with
  | POST => true
  | _ => false
  end.

(** The route table restricted to the handlers embedded above, in
    registration order: the software-analysis endpoint, then the catalog
    router mounted at [/api/services]. *)
Definition embedded_routes (e : runtime) (req : request) (ctx : tags)
    (res : response) : outcome :=
  if is_post (method req)
     && same_path [ "api"; "ai"; "software-analysis" ] (path req)
  then Sent (software_analysis e req ctx res)
  else if mounted_at [ "api"; "services" ] (path req)
  then Services.router e req (below [ "api"; "services" ] (path req)) res
  else NoMatch.

Section App.

(** The registered endpoints and routers, as one route table. *)
Variable routes : runtime -> request -> tags -> response -> outcome.

(** The stages that can answer before the request is tagged: cors,
    the two limiters, then the body parsers.  [inr] carries the stores on
    to the rest of the chain. *)
Definition before_tagging (e : runtime) (st : limiters) (req : request)
    (res : response) : limiters * response + limiters :=
  match cors req res with
  | Some answered => inl (st, answered)
  | None =>
      let '(ai, rejected) :=
        use_limiter [ "api"; "ai" ] aiLimiter (now e) (aiStore st) req res in
      match rejected with
      | Some r => inl ({| aiStore := ai; standardStore := standardStore st |}, r)
      | None =>
          let '(std, rejected) :=
            use_limiter [ "api" ] standardLimiter (now e) (standardStore st) req res in
          let st' := {| aiStore := ai; standardStore := std |} in
          match rejected with
          | Some r => inl (st', r)
          | None =>
              match bodyError req with
              | Some err => inl (st', errorHandler e err None res)
              | None => inr st'
              end
          end
      end
  end.

(** From tagging on: metadata headers, the route table, and the two
    terminal responders. *)
Definition after_tagging (e : runtime) (req : request) (res : response)
    : response :=
  let ctx := tagging e req in
  let res1 := apiHeaders ctx res in
  match routes e req ctx res1 with
  | Sent r => r
  | Threw err => errorHandler e err (Some ctx) res1
  | NoMatch => notFound req ctx res1
  end.

(** One request through the chain.  [res] is the response object with
    the headers the security-header middleware and cors have written;
    compression does not change what is modelled of a response. *)
Definition app (e : runtime) (st : limiters) (req : request)
    (res : response) : limiters * response :=
  match before_tagging e st req res with
  | inl answered => answered
  | inr st' => (st', after_tagging e req res)
  end.

End App.

End Server.

(* ===================================================================== *)
(** ** Sample requests and runtime states *)
(* ===================================================================== *)

Module Samples.
Import JS Http RateLimit Server.

Definition noon : runtime :=
  {| now := 1730000000000;
     isoNow := "2024-10-27T03:33:20.000Z";
     random := fun _ => (1 # 4)%Q;
     randomBase36 := fun _ => "0.4fzyo82mvyr";
     NODE_ENV := None |}.

Definition in_production : runtime :=
  {| now := 1730000000000;
     isoNow := "2024-10-27T03:33:20.000Z";
     random := fun _ => (1 # 4)%Q;
     randomBase36 := fun _ => "0.4fzyo82mvyr";
     NODE_ENV := Some "production" |}.

Definition client_ip : string := "203.0.113.7".

(** GET /api/ai/integration from an AI platform that also supplies a
    request identifier. *)
Definition ai_probe : request :=
  {| method := GET;
     path := [ "api"; "ai"; "integration" ];
     originalUrl := "/api/ai/integration";
     headers := {[ "x-ai-platform" := "openai"; "x-request-id" := "abc-123" ]};
     ip := client_ip;
     body := [];
     bodyError := None |}.

(** A client that has used up the standard ceiling in the current window. *)
Definition saturated : limiters :=
  {| aiStore := ∅;
     standardStore :=
       {[ client_ip := {| totalHits := 1000; resetTime := 1730000600000 |} ]} |}.

Definition idle : limiters := {| aiStore := ∅; standardStore := ∅ |}.

(** A preflight for the catalog listing that supplies a request
    identifier. *)
Definition preflight : request :=
  {| method := OPTIONS;
     path := [ "api"; "services" ];
     originalUrl := "/api/services";
     headers := {[ "x-request-id" := "req-42" ]};
     ip := client_ip;
     body := [];
     bodyError := None |}.

(** GET /api/services with an inbound request identifier. *)
Definition list_request : request :=
  {| method := GET;
     path := [ "api"; "services" ];
     originalUrl := "/api/services";
     headers := {[ "x-request-id" := "req-42" ]};
     ip := client_ip;
     body := [];
     bodyError := None |}.

(** GET /api/services/1. *)
Definition by_id_request : request :=
  {| method := GET;
     path := [ "api"; "services"; "1" ];
     originalUrl := "/api/services/1";
     headers := ∅;
     ip := client_ip;
     body := [];
     bodyError := None |}.

(** GET /api/services/category/security. *)
Definition by_category_request : request :=
  {| method := GET;
     path := [ "api"; "services"; "category"; "security" ];
     originalUrl := "/api/services/category/security";
     headers := ∅;
     ip := client_ip;
     body := [];
     bodyError := None |}.

(** GET /api/services/category/constructor. *)
Definition constructor_request : request :=
  {| method := GET;
     path := [ "api"; "services"; "category"; "constructor" ];
     originalUrl := "/api/services/category/constructor";
     headers := ∅;
     ip := client_ip;
     body := [];
     bodyError := None |}.

(** GET /api/services/abc. *)
Definition unparsable_request : request :=
  {| method := GET;
     path := [ "api"; "services"; "abc" ];
     originalUrl := "/api/services/abc";
     headers := ∅;
     ip := client_ip;
     body := [];
     bodyError := None |}.

(** POST /api/ai/software-analysis with a payload the JSON parser
    rejects. *)
Definition malformed_analysis : request :=
  {| method := POST;
     path := [ "api"; "ai"; "software-analysis" ];
     originalUrl := "/api/ai/software-analysis";
     headers := {[ "x-request-id" := "abc-123" ]};
     ip := client_ip;
     body := [];
     bodyError := Some {| err_status := Some 400;
                          err_message := "Unexpected token } in JSON at position 1";
                          err_name := "SyntaxError";
                          err_stack := None |} |}.

(** POST /api/ai/software-analysis with the body [{}]. *)
Definition empty_analysis : request :=
  {| method := POST;
     path := [ "api"; "ai"; "software-analysis" ];
     originalUrl := "/api/ai/software-analysis";
     headers := ∅;
     ip := client_ip;
     body := [];
     bodyError := None |}.

(** A failure that declares status 503. *)
Definition unavailable : js_error :=
  {| err_status := Some 503;
     err_message := "upstream timed out";
     err_name := "Error";
     err_stack := Some "Error: upstream timed out at handler" |}.

End Samples.

(* ===================================================================== *)
(** ** Vocabulary of the specification *)
(* ===================================================================== *)

Import JS Http RateLimit Services Server.

(** AI-platform traffic: a non-empty [x-ai-platform] header, or a user
    agent containing one of the known platform names. *)
Definition ai_tagged (req : request) : Prop :=
  (exists v, header req "x-ai-platform" = Some v /\ v <> "") \/
  (exists ua platform, header req "user-agent" = Some ua /\
                       In platform aiPlatforms /\ includes ua platform = true).

(** The identifier a response carries: the [X-Request-ID] header, or
    else the [requestId] field of a JSON body. *)
Definition carried_request_id (res : response) : option string :=
  match resHeaders res !! "X-Request-ID" with
  | Some id => Some id
  | None =>
      match sent_json res with
      | Some b => match field b "requestId" with
                  | JStr id => Some id
                  | _ => None
                  end
      | None => None
      end
  end.

(** A body without a recognized [analysis_type]: the field is missing,
    or is not one of the supported strings. *)
Definition lacks_recognized_type (props : list (string * jsval)) : Prop :=
  forall s, own_property props "analysis_type" = Some (JStr s) ->
            ~ In s supportedAnalysisTypes.

(** An entry's category equals [c] up to case. *)
Definition category_matches (c : string) (entry : jsval) : bool :=
  match category_of entry with
  | JStr k => String.eqb (toLowerCase k) (toLowerCase c)
  | _ => false
  end.

(** The keys of the category mapping. *)
Definition known_categories : list string := map fst servicesByCategory.

(** Reading a listing response: its entries, their identifiers, and the
    category names of its metadata. *)
Definition listed_entries (res : response) : list jsval :=
  match sent_json res with
  | Some b => match field b "data" with
              | JArr entries => entries
              | _ => []
              end
  | None => []
  end.

Definition listed_categories (res : response) : list jsval :=
  match sent_json res with
  | Some b => match field (field b "metadata") "categories" with
              | JArr cs => cs
              | _ => []
              end
  | None => []
  end.

Definition int_of (v : jsval) : option Z :=
  match v with
  | JNum q => if (Qden q =? 1)%positive then Some (Qnum q) else None
  | _ => None
  end.

Definition str_of (v : jsval) : option string :=
  match v with
  | JStr s => Some s
  | _ => None
  end.

Definition identifier_set (res : response) : gset Z :=
  list_to_set (omap (fun entry => int_of (id_of entry)) (listed_entries res)).

Definition category_set (res : response) : gset string :=
  list_to_set (omap str_of (listed_categories res)).

(** The catalog entry with a given identifier. *)
Definition catalog_entry (id : Z) : option jsval :=
  find (fun entry => same_value_zero (id_of entry) (JInt id)) services.

(** The cache directive of the specification. *)
Definition no_cache : string := "no-cache, no-store, must-revalidate, private".

(* ===================================================================== *)
(** ** The server: the other simulated AI endpoints *)
(* ===================================================================== *)

Module Endpoints.
Import JS Http Server.

(** *** POST /api/ai/automation-workflow *)

Definition supportedWorkflows : list string :=
  [ "deployment_automation"; "monitoring_automation"; "security_automation";
    "performance_optimization"; "resource_management"; "incident_response" ].

(** The object [trigger_conditions] falls back to. *)
Definition default_trigger_conditions : jsval :=
  JObj
    [ ("schedule", JStr "daily");
      ("threshold", JStr "80%");
      ("events", JArr [ JStr "error"; JStr "warning"; JStr "critical" ]) ].

(** The handler; as for the analysis endpoint, nothing in its [try]
    block can throw. *)
Definition automation_workflow (e : runtime) (req : request) (res : response)
    : response :=
  let workflow_type := get (body req) "workflow_type" in
  let parameters := get (body req) "parameters" in
  let trigger_conditions := get (body req) "trigger_conditions" in
  let ai_guidance := get (body req) "ai_guidance" in
  if negb (truthy workflow_type)
     || negb (includes_value supportedWorkflows workflow_type)
  then
    json (JObj [ ("error", JStr "Invalid workflow type");
                 ("supportedTypes", JArr (map JStr supportedWorkflows)) ])
         (status 400 res)
  else
    let workflow :=
      JObj
        [ ("id", JStr ("workflow_" ++ decimal (now e)));
          ("type", workflow_type);
          ("status", JStr "created");
          ("created_at", JStr (isoNow e));
          ("ai_guidance", js_or ai_guidance (JStr "standard"));
          ("trigger_conditions",
           js_or trigger_conditions default_trigger_conditions);
          ("steps", JArr
              [ JObj
                  [ ("step", JInt 1);
                    ("action", JStr "analyze_current_state");
                    ("ai_enhanced", JBool true);
                    ("parameters", js_or parameters (JObj [])) ];
                JObj
                  [ ("step", JInt 2);
                    ("action", JStr "generate_recommendations");
                    ("ai_enhanced", JBool true);
                    ("parameters", JObj []) ];
                JObj
                  [ ("step", JInt 3);
                    ("action", JStr "execute_optimization");
                    ("ai_enhanced", JBool true);
                    ("parameters", JObj []) ];
                JObj
                  [ ("step", JInt 4);
                    ("action", JStr "monitor_results");
                    ("ai_enhanced", JBool true);
                    ("parameters", JObj []) ] ]);
          ("metadata", JObj
              [ ("ai_model", JStr "gpt-4");
                ("confidence", JNum (92 # 100));
                ("estimated_duration", JStr "5 minutes");
                ("success_rate", JStr "95%") ]) ] in
    json
    (JObj
      [ ("message",
         JStr "Intelligent automation workflow created successfully");
        ("workflow", workflow);
        ("next_steps", JArr
            [ JStr "Review workflow configuration";
              JStr "Set execution schedule";
              JStr "Configure monitoring alerts";
              JStr "Test workflow in staging environment" ]) ])
    res.

(** *** POST /api/ai/performance-optimization *)

Definition default_metrics : jsval :=
  JObj
    [ ("cpu_usage", JInt 75);
      ("memory_usage", JInt 60);
      ("response_time", JInt 250);
      ("throughput", JInt 1000) ].

Definition default_goals : jsval :=
  JObj
    [ ("target_cpu", JInt 50);
      ("target_memory", JInt 40);
      ("target_response_time", JInt 150);
      ("target_throughput", JInt 1500) ].

Definition performance_optimization (e : runtime) (req : request)
    (res : response) : response :=
  let system_metrics := get (body req) "system_metrics" in
  let performance_goals := get (body req) "performance_goals" in
  let optimization_strategy := get (body req) "optimization_strategy" in
  json
    (JObj
      [ ("timestamp", JStr (isoNow e));
        ("strategy",
         js_or optimization_strategy (JStr "intelligent_adaptive"));
        ("current_metrics", js_or system_metrics default_metrics);
        ("goals", js_or performance_goals default_goals);
        ("ai_recommendations", JArr
            [ JObj
                [ ("category", JStr "resource_optimization");
                  ("action", JStr "Implement intelligent caching");
                  ("expected_improvement", JStr "25% faster response times");
                  ("confidence", JNum (89 # 100));
                  ("implementation_priority", JStr "high") ];
              JObj
                [ ("category", JStr "algorithm_optimization");
                  ("action",
                   JStr "Optimize database queries with AI analysis");
                  ("expected_improvement", JStr "30% reduced database load");
                  ("confidence", JNum (92 # 100));
                  ("implementation_priority", JStr "high") ];
              JObj
                [ ("category", JStr "infrastructure_optimization");
                  ("action",
                   JStr "Enable auto-scaling based on AI predictions");
                  ("expected_improvement",
                   JStr "40% better resource utilization");
                  ("confidence", JNum (85 # 100));
                  ("implementation_priority", JStr "medium") ] ]);
        ("implementation_plan", JObj
            [ ("phase_1", JArr
                  [ JStr "Implement caching";
                    JStr "Optimize queries" ]);
              ("phase_2", JArr
                  [ JStr "Enable auto-scaling";
                    JStr "Add monitoring" ]);
              ("phase_3", JArr
                  [ JStr "Advanced AI optimization";
                    JStr "Predictive scaling" ]);
              ("estimated_timeline", JStr "2-4 weeks") ]);
        ("monitoring", JObj
            [ ("metrics_to_track", JArr
                  [ JStr "response_time";
                    JStr "throughput";
                    JStr "resource_usage" ]);
              ("alert_thresholds", JObj
                  [ ("response_time", JInt 200);
                    ("cpu_usage", JInt 80);
                    ("memory_usage", JInt 85) ]);
              ("ai_anomaly_detection", JBool true) ]) ])
    res.

(** *** POST /api/ai/security-assessment *)

Definition security_assessment (e : runtime) (req : request) (res : response)
    : response :=
  let ai_enhanced_scanning := get (body req) "ai_enhanced_scanning" in
  json
    (JObj
      [ ("timestamp", JStr (isoNow e));
        ("scan_type",
         JStr (if truthy ai_enhanced_scanning then "ai_enhanced" else "standard"));
        ("overall_risk_score", JInt (Qfloor (random e 1 * 40) + 10));
        ("vulnerabilities", JArr
            [ JObj
                [ ("id", JStr "VULN-001");
                  ("severity", JStr "medium");
                  ("category", JStr "authentication");
                  ("description", JStr "Weak password policy enforcement");
                  ("ai_analysis", JObj
                      [ ("risk_level", JStr "medium");
                        ("exploitation_difficulty", JStr "low");
                        ("business_impact", JStr "high");
                        ("ai_confidence", JNum (94 # 100)) ]);
                  ("remediation", JObj
                      [ ("action", JStr "Implement strong password policy");
                        ("priority", JStr "high");
                        ("estimated_effort", JStr "2 hours");
                        ("ai_suggested_tools", JArr
                            [ JStr "password-validator";
                              JStr "policy-enforcer" ]) ]) ];
              JObj
                [ ("id", JStr "VULN-002");
                  ("severity", JStr "low");
                  ("category", JStr "input_validation");
                  ("description",
                   JStr "Missing input sanitization in contact form");
                  ("ai_analysis", JObj
                      [ ("risk_level", JStr "low");
                        ("exploitation_difficulty", JStr "medium");
                        ("business_impact", JStr "medium");
                        ("ai_confidence", JNum (87 # 100)) ]);
                  ("remediation", JObj
                      [ ("action",
                         JStr "Add input validation and sanitization");
                        ("priority", JStr "medium");
                        ("estimated_effort", JStr "4 hours");
                        ("ai_suggested_tools", JArr
                            [ JStr "validator.js";
                              JStr "sanitize-html" ]) ]) ] ]);
        ("compliance_status", JObj
            [ ("gdpr", JStr "compliant");
              ("sox", JStr "compliant");
              ("hipaa", JStr "not_applicable");
              ("pci_dss", JStr "compliant") ]);
        ("ai_recommendations", JArr
            [ JStr "Implement AI-powered threat detection";
              JStr "Enable automated security monitoring";
              JStr "Add behavioral analysis for anomaly detection";
              JStr "Implement intelligent access control" ]);
        ("next_steps", JArr
            [ JStr "Address high-priority vulnerabilities";
              JStr "Implement AI security monitoring";
              JStr "Schedule follow-up assessment";
              JStr "Update security policies" ]) ])
    res.

(** *** GET /api/ai/intelligent-monitoring *)

Definition intelligent_monitoring (e : runtime) (res : response) : response :=
  json
    (JObj
      [ ("timestamp", JStr (isoNow e));
        ("system_status", JStr "healthy");
        ("ai_monitoring", JObj
            [ ("enabled", JBool true);
              ("models", JArr
                  [ JStr "anomaly_detection";
                    JStr "predictive_analytics";
                    JStr "intelligent_alerting" ]);
              ("active_alerts", JInt 0);
              ("predicted_issues", JArr []);
              ("optimization_suggestions", JArr
                  [ JStr "System performance is optimal";
                    JStr "Resource utilization is efficient";
                    JStr "No immediate actions required" ]) ]);
        ("performance_metrics", JObj
            [ ("cpu_usage", JNum (random e 1 * 30 + 20));
              ("memory_usage", JNum (random e 2 * 25 + 15));
              ("response_time", JNum (random e 3 * 50 + 100));
              ("throughput", JNum (random e 4 * 200 + 800)) ]);
        ("intelligent_features", JObj
            [ ("auto_scaling", JStr "enabled");
              ("predictive_maintenance", JStr "active");
              ("intelligent_routing", JStr "enabled");
              ("ai_optimization", JStr "active") ]) ])
    res.

End Endpoints.

(* ===================================================================== *)
(** ** Startup: the API description loader and the HTTPS listener *)
(* ===================================================================== *)

Module Startup.
Import JS.

(** A [const] binding of the module scope: in its temporal dead zone
    until its declaration has been evaluated, initialized afterwards. *)
Inductive binding (A : Type) : Type :=
| Uninitialized
| Initialized (v : A).

Arguments Uninitialized {A}.
Arguments Initialized {A} v.

(** The two functions of the [path] module the loader calls. *)
Record path_module := {
  join : string -> string -> string;
  resolve : string -> string -> string
}.

(** The minimal OpenAPI stub. *)
Definition stub : jsval :=
  JObj [ ("openapi", JStr "3.0.0");
         ("info", JObj [ ("title", JStr "Maijjd Intelligent API");
                         ("version", JStr "2.0.0") ]);
         ("paths", JObj []) ].

(** One attempt, [require(locate(path)(base, 'swagger.json'))]: reading
    an uninitialized binding throws, and so does [require] on a file it
    cannot load ([None]). *)
Definition attempt (path : binding path_module)
    (locate : path_module -> string -> string -> string) (base : string)
    (require : string -> option jsval) : option jsval :=
  match path with
  | Uninitialized => None
  | Initialized p => require (locate p base "swagger.json")
  end.

(** The nested [try]/[catch] of the loader, for a given state of the
    [path] binding. *)
Definition load_swagger (path : binding path_module) (dirname cwd : string)
    (require : string -> option jsval) : jsval :=
  match attempt path join dirname require with
  | Some doc => doc
  | None =>
      match attempt path resolve cwd require with
      | Some doc => doc
      | None => stub
      end
  end.

(** The loader as the module runs it: [const path = require('path')]
    comes after it in the file, so the binding is still uninitialized. *)
Definition swaggerDocument (dirname cwd : string)
    (require : string -> option jsval) : jsval :=
  load_swagger Uninitialized dirname cwd require.

(** The environment variables read at startup. *)
Record process_env := {
  PORT : option string;
  HTTPS_PORT : option string;
  ENABLE_HTTPS : option string
}.

(** [process.env.PORT || 5001] and [process.env.HTTPS_PORT || 5002]. *)
Definition port (env : process_env) : jsval :=
  js_or (opt_str (PORT env)) (JInt 5001).





End Startup.

(* ===================================================================== *)
(** ** Sequences of requests *)
(* ===================================================================== *)

Module Traffic.
Import JS Http RateLimit Server.

(** One request repeated against a limiter at the given clock readings,
    in order: the store it leaves and the verdict on the last one. *)
Definition burst (o : options) (req : request) (res : response)
    (store : gmap string client) (clocks : list Z)
    : gmap string client * option response :=
  fold_left (fun st clock => rateLimit o clock (fst st) req res)
            clocks (store, None).

(** The limiter stores a request leaves behind, whether it is rejected
    or goes on. *)
Definition stores_after (e : runtime) (st : limiters) (req : request)
    (res : response) : limiters :=
  match before_tagging e st req res with
  | inl (st', _) => st'
  | inr st' => st'
  end.

(** One request repeated through the head of the chain at the given
    runtime states. *)
Definition session (req : request) (res : response) (st : limiters)
    (es : list runtime) : limiters :=
  fold_left (fun st e => stores_after e st req res) es st.

End Traffic.

(* ===================================================================== *)
(** ** Further vocabulary *)
(* ===================================================================== *)

Import Endpoints Traffic.

(** A number between two bounds, both included. *)
Definition in_range (lo hi : Q) (v : jsval) : Prop :=
  exists q, v = JNum q /\ (lo <= q)%Q /\ (q <= hi)%Q.

(** The contract of [Math.random()]: every draw lies in [0, 1). *)
Definition unit_draws (e : runtime) : Prop :=
  forall k, (0 <= random e k)%Q /\ (random e k < 1)%Q.

(** The rejection a limiter sends. *)
Definition rejection (o : options) (res : response) : response :=
  json (message o) (status 429 res).

(** The window of both limiters, fifteen minutes in milliseconds. *)
Definition window : Z := 900000.

(** A body the analysis endpoint accepts: a truthy [software_id] and an
    [analysis_type] that is one of the supported strings. *)
Definition valid_analysis_request (props : list (string * jsval)) : Prop :=
  exists id s,
    own_property props "software_id" = Some id /\ truthy id = true /\
    own_property props "analysis_type" = Some (JStr s) /\
    In s supportedAnalysisTypes.

(** A body the workflow endpoint accepts. *)
Definition valid_workflow_request (props : list (string * jsval)) : Prop :=
  exists s,
    own_property props "workflow_type" = Some (JStr s) /\
    In s supportedWorkflows.

(** What a handler finds for an optional input: the supplied value when
    it is truthy, the fallback when it is missing or falsy. *)
Definition supplied_or (props : list (string * jsval)) (k : string)
    (fallback : jsval) (v : jsval) : Prop :=
  match own_property props k with
  | Some x => if truthy x then v = x else v = fallback
  | None => v = fallback
  end.

(** A string that ends a decimal numeral for [parseInt]: it is empty or
    begins with a character that is no decimal digit. *)
Definition stops_number (t : string) : Prop :=
  match t with
  | EmptyString => True
  | String c _ =>
      match digit_value c with
      | Some d => 10 <= d
      | None => True
      end
  end.

(** Decimal digits written out in front of a string, and their value. *)
Fixpoint render (ds : list N) (t : string) : string :=
  match ds with
  | [] => t
  | d :: ds' => String (pretty_N_char d) (render ds' t)
  end.

Definition value (ds : list N) : Z :=
  fold_left (fun a d => 10 * a + Z.of_N d) ds 0.

(** The largest integer up to which every integer is a double. *)
Definition max_exact : Z := 9007199254740992.

(** The names of the headers the metadata middleware sets. *)
Definition metadata_headers : list string :=
  [ "X-API-Version"; "X-API-Platform"; "X-Content-Type-Options";
    "X-Frame-Options"; "X-XSS-Protection"; "X-Request-ID"; "X-AI-Compatible";
    "X-Data-Format"; "X-Response-Schema" ].

(* ===================================================================== *)
(** ** Rate limiting *)
(* ===================================================================== *)

Lemma truthy_JStr s : truthy (JStr s) = true <-> s <> "".
Proof.
  simpl. destruct (String.eqb_spec s ""); simpl; split; intros; congruence.
Qed.

(** The [skip] callback of the AI limiter recognizes exactly the
    AI-tagged requests. *)
Lemma aiLimiter_skip_spec req : aiLimiter_skip req = true <-> ai_tagged req.
Proof.
  unfold aiLimiter_skip, ai_tagged. rewrite existsb_exists. split.
  - intros (platform & Hin & Ht). unfold js_or, user_agent_includes in Ht.
    destruct (header req "user-agent") as [ua|] eqn:Hua; simpl in Ht.
    + destruct (includes ua platform) eqn:Hinc.
      * right. eauto.
      * left. destruct (header req "x-ai-platform") as [v|]; simpl in Ht; [|discriminate].
        exists v. split; [reflexivity|]. now apply truthy_JStr.
    + left. destruct (header req "x-ai-platform") as [v|]; simpl in Ht; [|discriminate].
      exists v. split; [reflexivity|]. now apply truthy_JStr.
  - intros [(v & Hv & Hne) | (ua & platform & Hua & Hin & Hinc)].
    + exists "openai.com". split; [simpl; auto|].
      unfold js_or, user_agent_includes. rewrite Hv.
      apply truthy_JStr in Hne.
      destruct (header req "user-agent") as [ua|]; simpl.
      * destruct (includes ua "openai.com"); simpl; [reflexivity|exact Hne].
      * exact Hne.
    + exists platform. split; [exact Hin|].
      unfold js_or, user_agent_includes. now rewrite Hua, Hinc.
Qed.

(** The AI limiter mounted on /api/ai neither counts nor rejects an
    AI-tagged request, whatever its store holds. *)
Lemma ai_tagged_skips_ai_limiter req clock res (ai : gmap string client) :
  ai_tagged req ->
  use_limiter [ "api"; "ai" ] aiLimiter clock ai req res = (ai, None).
Proof.
  intros Htag. apply aiLimiter_skip_spec in Htag. unfold use_limiter, rateLimit.
  destruct (mounted_at [ "api"; "ai" ] (path req)); [|reflexivity].
  change (skip aiLimiter req) with (aiLimiter_skip req). now rewrite Htag.
Qed.

(** C1, at the failing input: GET /api/ai/integration carrying
    [x-ai-platform: openai], from a client that has used the 1000
    requests of its current standard window.  The standard limiter
    counts the request (1000 becomes 1001) and rejects it with 429 and
    its own message, code RATE_LIMIT_EXCEEDED; the AI limiter, whose
    [skip] callback matches the request, keeps no count for the client:
    the exemption sits on the limiter with the higher ceiling, and the
    limiter meant for regular users turns the AI platform away. *)
Lemma ai_tagged_request_rejected_by_standard_limiter :
  ai_tagged Samples.ai_probe /\
  exists st res,
    app embedded_routes Samples.noon Samples.saturated Samples.ai_probe fresh
      = (st, res) /\
    statusCode res = 429 /\
    sent_json res = Some (message standardLimiter) /\
    field (message standardLimiter) "code" = JStr "RATE_LIMIT_EXCEEDED" /\
    standardStore st !! Samples.client_ip
      = Some {| totalHits := 1001; resetTime := 1730000600000 |} /\
    aiStore st !! Samples.client_ip = None.
Proof.
  split.
  - left. exists "openai". split; [reflexivity | discriminate].
  - eexists _, _. split; [reflexivity|]. now vm_compute.
Qed.

(* ===================================================================== *)
(** ** Request identifiers *)
(* ===================================================================== *)

Lemma append_cons_nonempty (s t : string) (c : ascii) :
  (s ++ String c t)%string <> "".
Proof. destruct s; discriminate. Qed.

Lemma generateRequestId_nonempty e : generateRequestId e <> "".
Proof. unfold generateRequestId. apply append_cons_nonempty. Qed.

Lemma or_else_nonempty h d : d <> "" -> or_else h d <> "".
Proof.
  intros Hd. unfold or_else. destruct h as [v|]; [|exact Hd].
  destruct (String.eqb_spec v ""); [exact Hd | assumption].
Qed.

Lemma or_else_supplied v d : v <> "" -> or_else (Some v) d = v.
Proof.
  intros Hv. unfold or_else. now destruct (String.eqb_spec v "").
Qed.

Lemma json_keeps_header v res k :
  k <> "Content-Type" -> resHeaders (json v res) !! k = resHeaders res !! k.
Proof.
  intros Hk. unfold json. simpl.
  destruct (resHeaders res !! "Content-Type"); [reflexivity|].
  now rewrite lookup_insert_ne.
Qed.

Lemma status_keeps_headers n res : resHeaders (status n res) = resHeaders res.
Proof. reflexivity. Qed.

Lemma setHeader_other k v res k' :
  k <> k' -> resHeaders (setHeader k v res) !! k' = resHeaders res !! k'.
Proof. intros Hk. unfold setHeader. simpl. now rewrite lookup_insert_ne. Qed.

Lemma apiHeaders_request_id ctx res :
  resHeaders (apiHeaders ctx res) !! "X-Request-ID" = Some (requestId ctx).
Proof.
  unfold apiHeaders. rewrite !setHeader_other by discriminate.
  unfold setHeader. simpl. apply lookup_insert_eq.
Qed.

Lemma errorHandler_keeps_header e err ctx res k :
  k <> "Content-Type" ->
  resHeaders (errorHandler e err ctx res) !! k = resHeaders res !! k.
Proof. intros Hk. unfold errorHandler. now rewrite json_keeps_header. Qed.

Lemma notFound_keeps_header req ctx res k :
  k <> "Content-Type" ->
  resHeaders (notFound req ctx res) !! k = resHeaders res !! k.
Proof. intros Hk. unfold notFound. now rewrite json_keeps_header. Qed.

(** Case analysis on which embedded handler answers. *)
Ltac by_handler :=
  unfold embedded_routes, software_analysis, router;
  repeat match goal with
         | |- context [if ?b then _ else _] => destruct b
         | |- context [match method ?r with _ => _ end] => destruct (method r)
         | |- context [match match_route ?s with _ => _ end] =>
             destruct (match_route s) as [[]|]
         end;
  intros H; inversion H; subst; clear H;
  unfold test, list_services, get_service_by_id, get_services_by_category, set;
  simpl fold_left.

(** No handler embedded here removes or replaces the identifier header. *)
Lemma embedded_routes_keep_request_id e req ctx res r :
  embedded_routes e req ctx res = Sent r ->
  resHeaders r !! "X-Request-ID" = resHeaders res !! "X-Request-ID".
Proof.
  by_handler;
    rewrite ?json_keeps_header, ?status_keeps_headers, ?setHeader_other
      by discriminate;
    reflexivity.
Qed.

(** C2, as stated, fails: a request that supplies [x-request-id] and is
    turned away by the rate limiter gets an error response (429) that
    carries no request identifier, neither as a header nor in its body. *)
Lemma rate_limited_response_has_no_request_id :
  header Samples.ai_probe "x-request-id" = Some "abc-123" /\
  let res := snd (app embedded_routes Samples.noon Samples.saturated
                      Samples.ai_probe fresh) in
  statusCode res = 429 /\
  carried_request_id res = None.
Proof. now vm_compute. Qed.

(** The same holds for a payload the body parsers reject: the error
    responder runs on a request that was never tagged. *)
Lemma malformed_body_response_has_no_request_id :
  let res := snd (app embedded_routes Samples.noon Samples.idle
                      Samples.malformed_analysis fresh) in
  statusCode res = 400 /\
  carried_request_id res = None.
Proof. now vm_compute. Qed.

(** An OPTIONS request never reaches a limiter, the tagging middleware
    or a route: cors answers it, and the stores stay as they were. *)
Lemma preflight_is_answered_by_cors
    (routes : runtime -> request -> tags -> response -> outcome)
    e st req res :
  method req = OPTIONS ->
  app routes e st req res
    = (st, {| statusCode := 204;
              resHeaders := <["Content-Length" := "0"]> (resHeaders res);
              resBody := NoBody |}).
Proof.
  intros Hm. unfold app, before_tagging, cors. now rewrite Hm.
Qed.

(** So a preflight that supplies [x-request-id] is answered without a
    request identifier as well. *)
Lemma preflight_response_has_no_request_id :
  header Samples.preflight "x-request-id" = Some "req-42" /\
  let res := snd (app embedded_routes Samples.noon Samples.idle
                      Samples.preflight fresh) in
  statusCode res = 204 /\
  carried_request_id res = None.
Proof. now vm_compute. Qed.

Section RequestIdentifier.

Variable routes : runtime -> request -> tags -> response -> outcome.

(** The registered handlers add headers of their own at most; they leave
    the identifier header as the metadata middleware set it. *)
Hypothesis routes_keep_request_id :
  forall e req ctx res r,
    routes e req ctx res = Sent r ->
    resHeaders r !! "X-Request-ID" = resHeaders res !! "X-Request-ID".

Lemma after_tagging_header e req res :
  resHeaders (after_tagging routes e req res) !! "X-Request-ID"
    = Some (requestId (tagging e req)).
Proof.
  unfold after_tagging.
  destruct (routes e req (tagging e req) (apiHeaders (tagging e req) res))
    as [r | err |] eqn:Hr.
  - rewrite (routes_keep_request_id _ _ _ _ _ Hr). apply apiHeaders_request_id.
  - rewrite errorHandler_keeps_header by discriminate. apply apiHeaders_request_id.
  - rewrite notFound_keeps_header by discriminate. apply apiHeaders_request_id.
Qed.

(** C2, amended: for every request that reaches the tagging middleware
    (cors does not end it as a preflight, neither limiter rejects it and
    the body parsers accept it), the response carries an [X-Request-ID] header holding a non-empty
    identifier: the inbound [x-request-id] value when a non-empty one
    was supplied, the generated identifier when none was; the bodies
    built by the error responder and by the 404 handler repeat it as
    [requestId]. *)
Theorem tagged_response_carries_request_id e st st' req res :
  before_tagging e st req res = inr st' ->
  let r := snd (app routes e st req res) in
  let id := requestId (tagging e req) in
  resHeaders r !! "X-Request-ID" = Some id /\
  id <> "" /\
  (forall v, header req "x-request-id" = Some v -> v <> "" -> id = v) /\
  (header req "x-request-id" = None -> id = generateRequestId e) /\
  (routes e req (tagging e req) (apiHeaders (tagging e req) res) = NoMatch
   \/ (exists err, routes e req (tagging e req) (apiHeaders (tagging e req) res)
                     = Threw err) ->
   exists b, sent_json r = Some b /\ field b "requestId" = JStr id).
Proof.
  intros Hpass r id. subst r id. unfold app. rewrite Hpass. simpl snd.
  split; [apply after_tagging_header|].
  split; [apply or_else_nonempty, generateRequestId_nonempty|].
  split; [|split].
  - intros v Hv Hne. simpl. rewrite Hv. now apply or_else_supplied.
  - intros Hnone. simpl. now rewrite Hnone.
  - unfold after_tagging. intros [Hr | [err Hr]]; rewrite Hr.
    + eexists. split; reflexivity.
    + unfold errorHandler.
      destruct (node_env_is e "development"); eexists; split; reflexivity.
Qed.

End RequestIdentifier.

Lemma tagged_response_carries_request_id_witness :
  exists st',
    before_tagging Samples.noon Samples.idle Samples.list_request fresh
      = inr st' /\
    resHeaders (snd (app embedded_routes Samples.noon Samples.idle
                         Samples.list_request fresh)) !! "X-Request-ID"
      = Some "req-42".
Proof.
  eexists. split; [reflexivity|].
  destruct (tagged_response_carries_request_id embedded_routes
              embedded_routes_keep_request_id Samples.noon Samples.idle _
              Samples.list_request fresh eq_refl) as (Hhdr & _ & Hin & _).
  rewrite Hhdr. apply (f_equal Some).
  apply Hin; [reflexivity | discriminate].
Defined.

(* ===================================================================== *)
(** ** The software-analysis endpoint *)
(* ===================================================================== *)

Lemma existsb_eqb_In s xs : existsb (String.eqb s) xs = true <-> In s xs.
Proof.
  rewrite existsb_exists. split.
  - intros (x & Hin & Heq). apply String.eqb_eq in Heq. now subst.
  - intros Hin. exists s. split; [exact Hin | apply String.eqb_refl].
Qed.

Lemma unrecognized_type_not_included props :
  lacks_recognized_type props ->
  includes_value supportedAnalysisTypes (get props "analysis_type") = false.
Proof.
  intros Hlack. unfold get.
  destruct (own_property props "analysis_type") as [v|] eqn:Hown; [|reflexivity].
  destruct v; try reflexivity. unfold includes_value.
  apply not_true_is_false. intros Hin. apply existsb_eqb_In in Hin.
  exact (Hlack _ Hown Hin).
Qed.

(** C3: a body without a recognized [analysis_type] is answered with
    status 400, the error "Invalid parameters" and the six supported
    types; the witness below is the empty body. *)
Theorem software_analysis_rejects_unrecognized_type e req ctx res :
  lacks_recognized_type (body req) ->
  let r := software_analysis e req ctx res in
  statusCode r = 400 /\
  exists b,
    sent_json r = Some b /\
    field b "error" = JStr "Invalid parameters" /\
    field b "supportedTypes"
      = JArr [ JStr "performance"; JStr "security"; JStr "optimization";
               JStr "usage"; JStr "compatibility"; JStr "scalability" ].
Proof.
  intros Hlack. unfold software_analysis.
  rewrite (unrecognized_type_not_included _ Hlack), orb_true_r.
  split; [reflexivity|]. eexists. split; [reflexivity|]. split; reflexivity.
Qed.

Lemma software_analysis_rejects_unrecognized_type_witness :
  body Samples.empty_analysis = [] /\
  let r := snd (app embedded_routes Samples.noon Samples.idle
                    Samples.empty_analysis fresh) in
  statusCode r = 400 /\
  exists b, sent_json r = Some b /\ field b "error" = JStr "Invalid parameters".
Proof.
  split; [reflexivity|].
  destruct (software_analysis_rejects_unrecognized_type Samples.noon
              Samples.empty_analysis
              (tagging Samples.noon Samples.empty_analysis)
              (apiHeaders (tagging Samples.noon Samples.empty_analysis) fresh))
    as (Hcode & b & Hb & Herr & _).
  { intros s Hs. discriminate Hs. }
  split; [exact Hcode|]. exists b. split; assumption.
Defined.

(* ===================================================================== *)
(** ** From the chain to the catalog handlers *)
(* ===================================================================== *)

Lemma apiHeaders_status ctx res :
  statusCode (apiHeaders ctx res) = statusCode res.
Proof. reflexivity. Qed.

(** A GET request below /api/services that the limiters and parsers let
    through is answered by the catalog router, on the response object
    the metadata middleware has prepared. *)
Lemma catalog_request_reaches_router e st st' req res segs r :
  method req = GET ->
  path req = ("api" :: "services" :: segs)%list ->
  before_tagging e st req res = inr st' ->
  router e req segs (apiHeaders (tagging e req) res) = Sent r ->
  app embedded_routes e st req res = (st', r).
Proof.
  intros Hm Hp Hpass Hr. unfold app, after_tagging, embedded_routes.
  rewrite Hpass, Hm, Hp. simpl is_post. simpl andb.
  change (mounted_at [ "api"; "services" ] ("api" :: "services" :: segs)%list)
    with true.
  change (below [ "api"; "services" ] ("api" :: "services" :: segs)%list)
    with segs.
  cbv iota. cbv beta. now rewrite Hr.
Qed.

(* ===================================================================== *)
(** ** The catalog router: lookup by identifier *)
(* ===================================================================== *)

(** Every single non-empty segment other than [test] reaches the by-id
    handler. *)
Lemma router_by_id e req id res :
  method req = GET -> id <> "" -> same_segment id "test" = false ->
  router e req [ id ] res = Sent (get_service_by_id id res).
Proof.
  intros Hm Hid Htest. unfold router, match_route. rewrite Hm, Htest.
  now destruct (String.eqb_spec id "").
Qed.

Lemma get_service_by_id_status id res :
  statusCode (get_service_by_id id res) = statusCode res.
Proof. reflexivity. Qed.

(** C4: a segment that does not parse as an integer is not rejected;
    the handler answers 200 with the mock service whose [id] is NaN. *)
Theorem get_by_id_accepts_unparsable_identifier id res :
  parseInt id = JNaN ->
  statusCode res = 200 ->
  let r := get_service_by_id id res in
  statusCode r = 200 /\
  exists data,
    sent_json r = Some (JObj [ ("message", JStr "Service retrieved successfully");
                               ("data", data) ]) /\
    field data "id" = JNaN /\
    field data "name" = JStr "Custom Software Development".
Proof.
  intros Hnan Hok. split; [exact Hok|].
  eexists. split; [reflexivity|]. split; [|reflexivity].
  unfold service, field, get. simpl own_property. exact Hnan.
Qed.

Lemma get_by_id_accepts_unparsable_identifier_witness :
  parseInt "abc" = JNaN /\
  let r := snd (app embedded_routes Samples.noon Samples.idle
                    Samples.unparsable_request fresh) in
  statusCode r = 200 /\
  exists data,
    sent_json r = Some (JObj [ ("message", JStr "Service retrieved successfully");
                               ("data", data) ]) /\
    field data "id" = JNaN.
Proof.
  split; [reflexivity|].
  destruct (get_by_id_accepts_unparsable_identifier "abc"
              (apiHeaders (tagging Samples.noon Samples.unparsable_request) fresh)
              eq_refl eq_refl) as (Hcode & data & Hbody & Hid & _).
  split; [exact Hcode|]. exists data. split; [exact Hbody | exact Hid].
Defined.

(** On the wire the NaN identifier is serialized as [null]. *)
Lemma unparsable_identifier_on_the_wire :
  exists b data,
    sent_json (get_service_by_id "abc" fresh) = Some b /\
    to_wire b = Some (JObj [ ("message", JStr "Service retrieved successfully");
                             ("data", data) ]) /\
    field data "id" = JNull.
Proof. eexists _, _. split; [reflexivity|]. split; reflexivity. Qed.

(** C10: the bodies for two identifier segments agree on everything but
    [data.id]: one constant list of fields follows the parsed identifier
    in both; status and headers agree as well.  The catalog is not
    consulted: the body for "2" does not carry the name of catalog
    entry 2. *)
Theorem get_by_id_differs_only_in_id s1 s2 res :
  exists rest,
    sent_json (get_service_by_id s1 res)
      = Some (JObj [ ("message", JStr "Service retrieved successfully");
                     ("data", JObj (("id", parseInt s1) :: rest)) ]) /\
    sent_json (get_service_by_id s2 res)
      = Some (JObj [ ("message", JStr "Service retrieved successfully");
                     ("data", JObj (("id", parseInt s2) :: rest)) ]) /\
    own_property rest "id" = None /\
    statusCode (get_service_by_id s1 res) = statusCode (get_service_by_id s2 res) /\
    resHeaders (get_service_by_id s1 res) = resHeaders (get_service_by_id s2 res) /\
    exists entry,
      catalog_entry 2 = Some entry /\
      field entry "name" = JStr "Database Management & Analytics" /\
      field (service "2") "id" = JInt 2 /\
      field (service "2") "name" = JStr "Custom Software Development".
Proof.
  eexists. split; [reflexivity|]. split; [reflexivity|].
  split; [reflexivity|]. split; [reflexivity|]. split; [reflexivity|].
  eexists. split; [reflexivity|]. split; [reflexivity|]. split; reflexivity.
Qed.

(* ===================================================================== *)
(** ** The catalog router: lookup by category *)
(* ===================================================================== *)

Lemma lower_char_idempotent a : lower_char (lower_char a) = lower_char a.
Proof. destruct a as [[] [] [] [] [] [] [] []]; reflexivity. Qed.

Lemma toLowerCase_idempotent s : toLowerCase (toLowerCase s) = toLowerCase s.
Proof.
  induction s as [|a s IH]; simpl; [reflexivity|].
  now rewrite lower_char_idempotent, IH.
Qed.

(** A lower-cased string is none of the mixed-case method names. *)
Lemma lowered_is_no_method c :
  existsb (String.eqb (toLowerCase c)) object_prototype_methods = false.
Proof.
  apply not_true_is_false. intros Hex. apply existsb_eqb_In in Hex.
  assert (Hfix : forall m, In m object_prototype_methods ->
                           toLowerCase m <> m).
  { intros m Hm. simpl in Hm.
    repeat destruct Hm as [<- | Hm]; try discriminate. destruct Hm. }
  apply (Hfix _ Hex). apply toLowerCase_idempotent.
Qed.

Lemma own_property_None props k :
  ~ In k (map fst props) -> own_property props k = None.
Proof.
  induction props as [|[k' v] props IH]; simpl; [reflexivity|].
  intros Hnot. destruct (String.eqb_spec k' k) as [->|Hne].
  - exfalso. apply Hnot. now left.
  - apply IH. intros Hin. apply Hnot. now right.
Qed.

(** The first half of the category contract holds for every segment:
    whenever the lookup yields an array, its entries match the segment
    up to case. *)
Lemma category_entries_match c entries :
  services_in_category c = JArr entries ->
  forallb (category_matches c) entries = true.
Proof.
  unfold services_in_category, get, servicesByCategory. cbn [own_property].
  repeat match goal with
         | |- context [String.eqb ?k (toLowerCase c)] =>
             destruct (String.eqb_spec k (toLowerCase c)) as [Hk|_]
         end;
    try (cbv [js_or truthy]; intros Heq; injection Heq as <-;
         unfold forallb, category_matches; rewrite <- Hk; reflexivity).
  unfold object_prototype_get, js_or.
  repeat match goal with
         | |- context [if ?b then _ else _] => destruct b; simpl
         end;
    intros Heq; try discriminate Heq; injection Heq as <-; reflexivity.
Qed.

(** The second half holds away from the two names an object literal
    inherits in lower case: any other unknown category yields the empty
    array. *)
Lemma unknown_category_is_empty c :
  ~ In (toLowerCase c) known_categories ->
  toLowerCase c <> "constructor" ->
  toLowerCase c <> "__proto__" ->
  services_in_category c = JArr [].
Proof.
  intros Hunknown Hctor Hproto. unfold services_in_category, get.
  rewrite own_property_None by exact Hunknown.
  unfold object_prototype_get. rewrite lowered_is_no_method.
  destruct (String.eqb_spec (toLowerCase c) "constructor"); [contradiction|].
  destruct (String.eqb_spec (toLowerCase c) "__proto__"); [contradiction|].
  reflexivity.
Qed.

(** C5, at the failing input: [constructor] is not a key of the mapping,
    yet the lookup finds the inherited [Object] function, which is
    truthy, so the fallback to the empty array is not taken: the answer
    is 200 with [data] bound to that function, and the serialized body
    has no [data] member at all. *)
Theorem category_constructor_is_not_empty :
  ~ In (toLowerCase "constructor") known_categories /\
  services_in_category "constructor" = JFun "Object" /\
  let r := snd (app embedded_routes Samples.noon Samples.idle
                    Samples.constructor_request fresh) in
  statusCode r = 200 /\
  sent_json r = Some (JObj [ ("message", JStr "Services retrieved successfully");
                             ("data", JFun "Object") ]) /\
  (sent_json r ≫= to_wire)
    = Some (JObj [ ("message", JStr "Services retrieved successfully") ]).
Proof.
  split.
  - simpl. intros Hin. repeat destruct Hin as [Hin | Hin]; try discriminate Hin.
    destruct Hin.
  - now vm_compute.
Qed.

(** The other inherited name: [__proto__] yields [Object.prototype],
    serialized as an empty object rather than an empty array. *)
Lemma category_proto_is_not_an_array :
  services_in_category "__proto__" = JObjectPrototype /\
  to_wire (services_in_category "__proto__") = Some (JObj []).
Proof. split; reflexivity. Qed.

(* ===================================================================== *)
(** ** The catalog router: the listing *)
(* ===================================================================== *)

Lemma list_services_status e res :
  statusCode (list_services e res) = statusCode res.
Proof. reflexivity. Qed.

(** C6: the listing answers 200 with exactly ten entries, reports
    [total_services] as 10, and lists every category name once. *)
Theorem list_services_ten_entries e res :
  statusCode res = 200 ->
  let r := list_services e res in
  statusCode r = 200 /\
  exists b,
    sent_json r = Some b /\
    length (listed_entries r) = 10%nat /\
    field (field b "metadata") "total_services" = JInt 10 /\
    length (listed_categories r) = 9%nat /\
    List.NoDup (listed_categories r).
Proof.
  intros Hok. split; [exact Hok|].
  eexists. split; [reflexivity|]. split; [reflexivity|].
  split; [reflexivity|]. split; [reflexivity|].
  change (listed_categories (list_services e res))
    with (spread_set (map category_of services)).
  vm_compute spread_set.
  repeat constructor; simpl; intuition discriminate.
Qed.

Lemma list_services_ten_entries_witness :
  let r := snd (app embedded_routes Samples.noon Samples.idle
                    Samples.list_request fresh) in
  statusCode r = 200 /\
  length (listed_entries r) = 10%nat /\
  List.NoDup (listed_categories r).
Proof.
  destruct (list_services_ten_entries Samples.noon
              (apiHeaders (tagging Samples.noon Samples.list_request) fresh)
              eq_refl) as (Hcode & b & _ & Hten & _ & _ & Hnodup).
  split; [exact Hcode|]. split; [exact Hten | exact Hnodup].
Defined.

(** C7: whatever the clock, the random draws and the incoming response
    object of two calls, the listings carry the same identifiers and the
    same categories, namely 1 to 10 and the nine category names. *)
Theorem list_services_idempotent e1 e2 res1 res2 :
  identifier_set (list_services e1 res1) = identifier_set (list_services e2 res2) /\
  category_set (list_services e1 res1) = category_set (list_services e2 res2) /\
  identifier_set (list_services e1 res1)
    = list_to_set [ 1; 2; 3; 4; 5; 6; 7; 8; 9; 10 ] /\
  category_set (list_services e1 res1)
    = list_to_set [ "Development"; "Data"; "Integration"; "Security";
                    "Analytics"; "Infrastructure"; "AI/ML"; "Mobile";
                    "E-commerce" ].
Proof.
  unfold identifier_set, category_set.
  change (listed_entries (list_services e1 res1)) with services.
  change (listed_entries (list_services e2 res2)) with services.
  change (listed_categories (list_services e1 res1))
    with (spread_set (map category_of services)).
  change (listed_categories (list_services e2 res2))
    with (spread_set (map category_of services)).
  split; [reflexivity|]. split; [reflexivity|]. split; reflexivity.
Qed.

(* ===================================================================== *)
(** ** Cache headers *)
(* ===================================================================== *)

Lemma get_service_by_id_keeps_header id res k :
  k <> "Content-Type" ->
  resHeaders (get_service_by_id id res) !! k = resHeaders res !! k.
Proof. intros Hk. unfold get_service_by_id. now apply json_keeps_header. Qed.

Lemma get_services_by_category_keeps_header c res k :
  k <> "Content-Type" ->
  resHeaders (get_services_by_category c res) !! k = resHeaders res !! k.
Proof. intros Hk. unfold get_services_by_category. now apply json_keeps_header. Qed.

Lemma list_services_cache_control e res :
  resHeaders (list_services e res) !! "Cache-Control" = Some no_cache.
Proof.
  unfold list_services, set. simpl fold_left.
  rewrite json_keeps_header, !setHeader_other by discriminate.
  unfold setHeader. simpl. apply lookup_insert_eq.
Qed.

(** The metadata middleware sets no cache directive either. *)
Lemma apiHeaders_no_cache_control ctx res :
  resHeaders (apiHeaders ctx res) !! "Cache-Control"
    = resHeaders res !! "Cache-Control".
Proof. unfold apiHeaders. now rewrite !setHeader_other by discriminate. Qed.

(** C9, at the failing inputs: through the whole chain, GET
    /api/services carries the cache directive, while GET /api/services/1
    and GET /api/services/category/security are answered 200 without any
    [Cache-Control] header. *)
Theorem only_the_listing_sets_cache_control :
  resHeaders (snd (app embedded_routes Samples.noon Samples.idle
                       Samples.list_request fresh)) !! "Cache-Control"
    = Some no_cache /\
  (let r := snd (app embedded_routes Samples.noon Samples.idle
                     Samples.by_id_request fresh) in
   statusCode r = 200 /\ resHeaders r !! "Cache-Control" = None) /\
  (let r := snd (app embedded_routes Samples.noon Samples.idle
                     Samples.by_category_request fresh) in
   statusCode r = 200 /\ resHeaders r !! "Cache-Control" = None).
Proof. now vm_compute. Qed.

(* ===================================================================== *)
(** ** The error responder *)
(* ===================================================================== *)

Lemma node_env_is_spec e mode :
  node_env_is e mode = true <-> NODE_ENV e = Some mode.
Proof.
  unfold node_env_is. destruct (NODE_ENV e) as [v|].
  - rewrite String.eqb_eq. split; congruence.
  - split; discriminate.
Qed.

Lemma node_env_exclusive e :
  node_env_is e "production" = true -> node_env_is e "development" = false.
Proof.
  unfold node_env_is. destruct (NODE_ENV e) as [v|]; [|discriminate].
  intros H. apply String.eqb_eq in H. now subst.
Qed.

(** C8: the responder answers with the declared status of the failure
    when it declares one (any code Node accepts, 100 to 999) and with
    500 when it declares none; a [stack] member appears in the body only
    when NODE_ENV is "development"; under "production" the body has no
    [stack] and no [details], and its message is the generic one. *)
Theorem error_responder_status_and_detail e err ctx res :
  let r := errorHandler e err ctx res in
  (forall s, err_status err = Some s -> 100 <= s <= 999 -> statusCode r = s) /\
  (err_status err = None -> statusCode r = 500) /\
  exists props,
    sent_json r = Some (JObj props) /\
    (own_property props "stack" <> None -> NODE_ENV e = Some "development") /\
    (NODE_ENV e = Some "production" ->
     own_property props "stack" = None /\
     own_property props "details" = None /\
     own_property props "message" = Some (JStr "Something went wrong")) /\
    (NODE_ENV e <> Some "production" ->
     own_property props "message" = Some (JStr (err_message err))).
Proof.
  unfold errorHandler. simpl statusCode. split; [|split].
  - intros s Hs Hrange. unfold status_or_500. rewrite Hs.
    destruct (Z.eqb_spec s 0); [lia | reflexivity].
  - intros Hnone. unfold status_or_500. now rewrite Hnone.
  - eexists. split; [reflexivity|]. split; [|split].
    + destruct (node_env_is e "development") eqn:Hdev.
      * intros _. now apply node_env_is_spec.
      * simpl. intros Hstack. now contradiction Hstack.
    + intros Hprod. apply node_env_is_spec in Hprod.
      rewrite (node_env_exclusive _ Hprod). simpl. rewrite Hprod.
      repeat split; reflexivity.
    + intros Hnot.
      assert (Hprod : node_env_is e "production" = false).
      { apply not_true_is_false. intros H. now apply node_env_is_spec in H. }
      destruct (node_env_is e "development"); simpl; now rewrite Hprod.
Qed.

Lemma error_responder_status_and_detail_witness :
  let r := errorHandler Samples.in_production Samples.unavailable None fresh in
  statusCode r = 503 /\
  exists props,
    sent_json r = Some (JObj props) /\
    own_property props "stack" = None /\
    own_property props "message" = Some (JStr "Something went wrong").
Proof.
  destruct (error_responder_status_and_detail Samples.in_production
              Samples.unavailable None fresh)
    as (Hdeclared & _ & props & Hbody & _ & Hprod & _).
  split.
  - apply Hdeclared; [reflexivity | lia].
  - exists props. split; [exact Hbody|].
    destruct (Hprod eq_refl) as (Hstack & _ & Hmsg). split; assumption.
Defined.

(* ===================================================================== *)
(** ** Rate limiting over sequences of requests *)
(* ===================================================================== *)

Lemma rateLimit_live o clock store req res k T :
  skip o req = false ->
  store !! ip req = Some {| totalHits := k; resetTime := T |} ->
  clock < T ->
  rateLimit o clock store req res =
    (<[ip req := {| totalHits := k + 1; resetTime := T |}]> store,
     if max o <? k + 1 then Some (rejection o res) else None).
Proof.
  intros Hskip Hc Hlive. unfold rateLimit, increment. rewrite Hskip, Hc. simpl.
  destruct (Z.leb_spec T clock); [lia|]. simpl.
  now destruct (max o <? k + 1).
Qed.

Lemma rateLimit_fresh o clock store req res :
  skip o req = false ->
  store !! ip req = None ->
  rateLimit o clock store req res =
    (<[ip req := {| totalHits := 1; resetTime := clock + windowMs o |}]> store,
     if max o <? 1 then Some (rejection o res) else None).
Proof.
  intros Hskip Hc. unfold rateLimit, increment. rewrite Hskip, Hc. simpl.
  now destruct (max o <? 1).
Qed.

Lemma rateLimit_expired o clock store req res c :
  skip o req = false ->
  store !! ip req = Some c ->
  resetTime c <= clock ->
  rateLimit o clock store req res =
    (<[ip req := {| totalHits := 1; resetTime := clock + windowMs o |}]> store,
     if max o <? 1 then Some (rejection o res) else None).
Proof.
  intros Hskip Hc Hover. unfold rateLimit, increment. rewrite Hskip, Hc.
  destruct (Z.leb_spec (resetTime c) clock); [|lia]. simpl.
  now destruct (max o <? 1).
Qed.

(** Inside a live window every further hit adds one to the count and
    leaves the end of the window where it is. *)
Lemma burst_in_window o req res ts : forall store k T v t,
  skip o req = false ->
  store !! ip req = Some {| totalHits := k; resetTime := T |} ->
  Forall (fun t' => t' < T) (t :: ts) ->
  fold_left (fun st clock => rateLimit o clock (fst st) req res)
            (t :: ts) (store, v) =
    (<[ip req := {| totalHits := k + Z.of_nat (length (t :: ts));
                    resetTime := T |}]> store,
     if max o <? k + Z.of_nat (length (t :: ts))
     then Some (rejection o res) else None).
Proof.
  induction ts as [|t' ts IH]; intros store k T v t Hskip Hc Hall.
  - simpl fold_left. simpl fst.
    rewrite (rateLimit_live _ _ _ _ _ _ _ Hskip Hc) by now inversion Hall.
    reflexivity.
  - inversion Hall as [|? ? Ht Hrest]; subst.
    change (fold_left ?f (t :: t' :: ts) (store, v))
      with (fold_left f (t' :: ts) (f (store, v) t)).
    cbv beta. simpl fst.
    rewrite (rateLimit_live _ _ _ _ _ _ _ Hskip Hc Ht).
    rewrite (IH _ (k + 1) T) by (assumption || apply lookup_insert_eq).
    rewrite insert_insert_eq.
    replace (k + 1 + Z.of_nat (length (t' :: ts)))
      with (k + Z.of_nat (length (t :: t' :: ts)))
      by (simpl length; lia).
    reflexivity.
Qed.

Lemma burst_from_first o req res store t0 ts :
  skip o req = false ->
  store !! ip req = None ->
  Forall (fun t => t < t0 + windowMs o) ts ->
  burst o req res store (t0 :: ts) =
    (<[ip req := {| totalHits := 1 + Z.of_nat (length ts);
                    resetTime := t0 + windowMs o |}]> store,
     if max o <? 1 + Z.of_nat (length ts)
     then Some (rejection o res) else None).
Proof.
  intros Hskip Hnone Hall. unfold burst.
  change (fold_left ?f (t0 :: ts) (store, None))
    with (fold_left f ts (f (store, None) t0)).
  cbv beta. simpl fst. rewrite (rateLimit_fresh _ _ _ _ _ Hskip Hnone).
  destruct ts as [|t ts].
  - simpl. now rewrite Z.add_0_r.
  - rewrite (burst_in_window o req res ts _ 1 (t0 + windowMs o))
      by (assumption || apply lookup_insert_eq).
    now rewrite insert_insert_eq.
Qed.

(** X1: a client new to the standard limiter sends requests at [t0] and
    then at further instants of the same fifteen-minute window.  The
    store then holds the number of requests made, the window still ends
    fifteen minutes after the first one, and the last request is
    rejected with 429 exactly when more than 1000 were made. *)
Theorem standard_ceiling_within_window req res store t0 ts :
  store !! ip req = None ->
  Forall (fun t => t < t0 + window) ts ->
  let n := 1 + Z.of_nat (length ts) in
  let '(store', verdict) := burst standardLimiter req res store (t0 :: ts) in
  store' !! ip req = Some {| totalHits := n; resetTime := t0 + window |} /\
  (n <= 1000 -> verdict = None) /\
  (1000 < n -> verdict = Some (rejection standardLimiter res) /\
               statusCode (rejection standardLimiter res) = 429).
Proof.
  intros Hnone Hall n.
  rewrite (burst_from_first standardLimiter req res store t0 ts eq_refl Hnone Hall).
  split; [apply lookup_insert_eq|]. change (max standardLimiter) with 1000.
  fold n. split; intros Hn.
  - destruct (Z.ltb_spec 1000 n); [lia | reflexivity].
  - destruct (Z.ltb_spec 1000 n); [split; reflexivity | lia].
Qed.

Lemma standard_ceiling_within_window_witness :
  let '(store', verdict) :=
    burst standardLimiter Samples.list_request fresh ∅
          [ 1730000000000; 1730000000001; 1730000000500 ] in
  store' !! Samples.client_ip
    = Some {| totalHits := 3; resetTime := 1730000900000 |} /\
  verdict = None.
Proof.
  pose proof (standard_ceiling_within_window Samples.list_request fresh ∅
                1730000000000 [ 1730000000001; 1730000000500 ]
                (lookup_empty _)) as H.
  cbv zeta in H.
  destruct (burst standardLimiter Samples.list_request fresh ∅
              [ 1730000000000; 1730000000001; 1730000000500 ])
    as [store' verdict].
  destruct H as (Hcount & Hpass & _).
  { repeat constructor. }
  split; [exact Hcount | apply Hpass; simpl; lia].
Defined.

(** X2: however many requests a client made in a window, its first
    request at or after the end of that window passes and opens a new
    window with a count of one. *)
Theorem standard_window_resets req res store t0 ts t :
  store !! ip req = None ->
  Forall (fun t' => t' < t0 + window) ts ->
  t0 + window <= t ->
  burst standardLimiter req res store (t0 :: ts ++ [ t ]) =
    (<[ip req := {| totalHits := 1; resetTime := t + window |}]> store, None).
Proof.
  intros Hnone Hall Hlate. unfold burst.
  change (t0 :: ts ++ [ t ])%list with ((t0 :: ts) ++ [ t ])%list.
  rewrite fold_left_app.
  change (fold_left _ (t0 :: ts) (store, None))
    with (burst standardLimiter req res store (t0 :: ts)).
  rewrite (burst_from_first standardLimiter req res store t0 ts eq_refl Hnone Hall).
  simpl fold_left. simpl fst.
  rewrite (rateLimit_expired standardLimiter t _ req res
             {| totalHits := 1 + Z.of_nat (length ts);
                resetTime := t0 + windowMs standardLimiter |} eq_refl)
    by (apply lookup_insert_eq || exact Hlate).
  now rewrite insert_insert_eq.
Qed.

Lemma standard_window_resets_witness :
  burst standardLimiter Samples.list_request fresh ∅
        [ 1730000000000; 1730000000001; 1730000900000 ]
    = (<[Samples.client_ip := {| totalHits := 1; resetTime := 1730001800000 |}]> ∅,
       None).
Proof.
  apply (standard_window_resets Samples.list_request fresh ∅ 1730000000000
           [ 1730000000001 ] 1730000900000).
  - apply lookup_empty.
  - repeat constructor.
  - unfold window. lia.
Defined.

Lemma rateLimit_other_client o clock store req res key :
  key <> ip req ->
  fst (rateLimit o clock store req res) !! key = store !! key.
Proof.
  intros Hkey. unfold rateLimit.
  destruct (skip o req); [reflexivity|].
  destruct (max o <? _); simpl; now rewrite lookup_insert_ne.
Qed.

Lemma use_limiter_other_client mount o clock store req res key :
  key <> ip req ->
  fst (use_limiter mount o clock store req res) !! key = store !! key.
Proof.
  intros Hkey. unfold use_limiter.
  destruct (mounted_at mount (path req)); [|reflexivity].
  now apply rateLimit_other_client.
Qed.

(** X3: a request changes the counters of its own client address only:
    in both stores the entry of every other address is what it was,
    whatever the route table does with the request. *)
Theorem other_clients_are_untouched
    (routes : runtime -> request -> tags -> response -> outcome)
    e st req res key :
  key <> ip req ->
  aiStore (fst (app routes e st req res)) !! key = aiStore st !! key /\
  standardStore (fst (app routes e st req res)) !! key = standardStore st !! key.
Proof.
  intros Hkey. unfold app, before_tagging.
  pose proof (use_limiter_other_client [ "api"; "ai" ] aiLimiter (now e)
                (aiStore st) req res key Hkey) as Hai.
  pose proof (use_limiter_other_client [ "api" ] standardLimiter (now e)
                (standardStore st) req res key Hkey) as Hstd.
  destruct (cors req res); [now split|].
  destruct (use_limiter [ "api"; "ai" ] aiLimiter (now e) (aiStore st) req res)
    as [ai [r|]]; simpl in Hai.
  - simpl. now split.
  - destruct (use_limiter [ "api" ] standardLimiter (now e) (standardStore st)
                req res) as [std [r|]]; simpl in Hstd.
    + simpl. now split.
    + destruct (bodyError req); simpl; now split.
Qed.

Lemma other_clients_are_untouched_witness :
  standardStore (fst (app embedded_routes Samples.noon Samples.saturated
                          Samples.ai_probe fresh)) !! "198.51.100.9"
    = None.
Proof.
  destruct (other_clients_are_untouched embedded_routes Samples.noon
              Samples.saturated Samples.ai_probe fresh "198.51.100.9")
    as (_ & Hstd).
  { discriminate. }
  rewrite Hstd. reflexivity.
Defined.

Lemma mounted_ai_is_mounted_api segs :
  mounted_at [ "api"; "ai" ] segs = true -> mounted_at [ "api" ] segs = true.
Proof.
  destruct segs as [|s segs]; simpl; [discriminate|].
  intros H. apply andb_true_iff in H as [Hs _]. now rewrite Hs.
Qed.

(** X4: a path outside /api is never rate limited: neither store
    changes and no limiter answers.  The head of the chain answers such
    a request only in two cases: cors ends an OPTIONS request with
    status 204, and the error responder answers when the body parsers
    forward an error; every other request goes on to tagging. *)
Theorem outside_api_is_never_limited e st req res :
  mounted_at [ "api" ] (path req) = false ->
  before_tagging e st req res =
    if is_options (method req)
    then inl (st, {| statusCode := 204;
                     resHeaders := <["Content-Length" := "0"]> (resHeaders res);
                     resBody := NoBody |})
    else match bodyError req with
         | Some err => inl (st, errorHandler e err None res)
         | None => inr st
         end.
Proof.
  intros Hout. unfold before_tagging, cors, use_limiter. rewrite Hout.
  destruct (is_options (method req)); [reflexivity|].
  destruct (mounted_at [ "api"; "ai" ] (path req)) eqn:Hai.
  - apply mounted_ai_is_mounted_api in Hai. congruence.
  - destruct st. simpl. now destruct (bodyError req).
Qed.

Lemma outside_api_is_never_limited_witness :
  before_tagging Samples.noon Samples.saturated
    {| method := GET; path := [ "health" ]; originalUrl := "/health";
       headers := ∅; ip := Samples.client_ip; body := []; bodyError := None |}
    fresh
    = inr Samples.saturated.
Proof.
  apply (outside_api_is_never_limited Samples.noon Samples.saturated
           {| method := GET; path := [ "health" ]; originalUrl := "/health";
              headers := ∅; ip := Samples.client_ip; body := [];
              bodyError := None |} fresh).
  reflexivity.
Defined.

(** One request through the head of the chain, for a client with live
    windows in both stores. *)
Lemma stores_after_live e st req res a s T :
  is_options (method req) = false ->
  mounted_at [ "api"; "ai" ] (path req) = true ->
  aiLimiter_skip req = false ->
  aiStore st !! ip req = Some {| totalHits := a; resetTime := T |} ->
  standardStore st !! ip req = Some {| totalHits := s; resetTime := T |} ->
  now e < T ->
  before_tagging e st req res =
    if 2000 <? a + 1
    then inl ({| aiStore := <[ip req := {| totalHits := a + 1; resetTime := T |}]> (aiStore st);
                 standardStore := standardStore st |},
              rejection aiLimiter res)
    else
      let st' :=
        {| aiStore := <[ip req := {| totalHits := a + 1; resetTime := T |}]> (aiStore st);
           standardStore :=
             <[ip req := {| totalHits := s + 1; resetTime := T |}]> (standardStore st) |} in
      if 1000 <? s + 1
      then inl (st', rejection standardLimiter res)
      else match bodyError req with
           | Some err => inl (st', errorHandler e err None res)
           | None => inr st'
           end.
Proof.
  intros Hopt Hai Hskip Ha Hs Hlive.
  pose proof (mounted_ai_is_mounted_api _ Hai) as Hapi.
  unfold before_tagging, cors, use_limiter. rewrite Hopt, Hai, Hapi.
  rewrite (rateLimit_live aiLimiter _ _ _ _ _ _ Hskip Ha Hlive).
  change (max aiLimiter) with 2000.
  destruct (2000 <? a + 1); [reflexivity|].
  rewrite (rateLimit_live standardLimiter _ _ _ _ _ _ eq_refl Hs Hlive).
  change (max standardLimiter) with 1000.
  destruct (1000 <? s + 1); [reflexivity|].
  now destruct (bodyError req).
Qed.

Lemma session_snoc req res st es e :
  session req res st (es ++ [ e ]) = stores_after e (session req res st es) req res.
Proof. unfold session. now rewrite fold_left_app. Qed.

(** The counters after a run of untagged requests to /api/ai in one
    window, none of them a preflight: the AI limiter has counted them
    all, the standard limiter those the AI limiter let through. *)
Lemma session_counts req res e0 es :
  is_options (method req) = false ->
  mounted_at [ "api"; "ai" ] (path req) = true ->
  aiLimiter_skip req = false ->
  Forall (fun e => now e < now e0 + window) es ->
  let n := 1 + Z.of_nat (length es) in
  let st := session req res Samples.idle (e0 :: es) in
  aiStore st !! ip req
    = Some {| totalHits := n; resetTime := now e0 + window |} /\
  standardStore st !! ip req
    = Some {| totalHits := Z.min n 2000; resetTime := now e0 + window |}.
Proof.
  intros Hopt Hai Hskip. pose proof (mounted_ai_is_mounted_api _ Hai) as Hapi.
  induction es as [|e es IH] using rev_ind; intros Hall n st; subst n st.
  - unfold session. simpl fold_left.
    unfold stores_after, before_tagging, cors, use_limiter.
    rewrite Hopt, Hai, Hapi.
    rewrite (rateLimit_fresh aiLimiter _ _ _ _ Hskip) by apply lookup_empty.
    rewrite (rateLimit_fresh standardLimiter _ _ _ _ eq_refl) by apply lookup_empty.
    simpl. destruct (bodyError req); simpl; split; apply lookup_insert_eq.
  - apply Forall_app in Hall as [Hes He]. inversion He as [|? ? Hlive _]; subst.
    specialize (IH Hes). cbv zeta in IH. destruct IH as [Ha Hs].
    change (e0 :: es ++ [ e ])%list with ((e0 :: es) ++ [ e ])%list.
    rewrite session_snoc.
    set (st := session req res Samples.idle (e0 :: es)) in *.
    unfold stores_after.
    rewrite (stores_after_live e st req res _ _ _ Hopt Hai Hskip Ha Hs Hlive).
    rewrite length_app. simpl length.
    replace (1 + Z.of_nat (length es + 1)) with (1 + Z.of_nat (length es) + 1) by lia.
    set (n := 1 + Z.of_nat (length es)) in *.
    assert (0 < n) by (subst n; lia).
    destruct (Z.ltb_spec 2000 (n + 1)).
    + simpl. split; [apply lookup_insert_eq|].
      rewrite Hs. f_equal. f_equal. lia.
    + cbv zeta.
      destruct (1000 <? Z.min n 2000 + 1); [|destruct (bodyError req)];
        simpl; (split; [apply lookup_insert_eq|]);
        rewrite lookup_insert_eq; f_equal; f_equal; lia.
Qed.

(** X5: a client without AI tagging that keeps calling an /api/ai
    endpoint within one window, with any method but OPTIONS (a preflight
    is answered by cors and counted by neither limiter), is admitted at
    most 1000 times:
    after 1000 to 1999 earlier requests the next one is rejected by the
    standard limiter, and from 2000 on by the AI limiter; the AI
    ceiling of 2000 never admits a request the standard ceiling would
    refuse. *)
Theorem ai_routes_share_the_standard_ceiling req res e0 es e :
  is_options (method req) = false ->
  mounted_at [ "api"; "ai" ] (path req) = true ->
  aiLimiter_skip req = false ->
  bodyError req = None ->
  Forall (fun e' => now e' < now e0 + window) (es ++ [ e ]) ->
  let n := 1 + Z.of_nat (length es) in
  let st := session req res Samples.idle (e0 :: es) in
  (n < 1000 -> exists st', before_tagging e st req res = inr st') /\
  (1000 <= n < 2000 ->
   exists st', before_tagging e st req res
               = inl (st', rejection standardLimiter res)) /\
  (2000 <= n ->
   exists st', before_tagging e st req res
               = inl (st', rejection aiLimiter res)).
Proof.
  intros Hopt Hai Hskip Hbody Hall n st.
  apply Forall_app in Hall as [Hes He]. inversion He as [|? ? Hlive _]; subst.
  destruct (session_counts req res e0 es Hopt Hai Hskip Hes) as [Ha Hs].
  fold n in Ha, Hs. fold st in Ha, Hs.
  rewrite (stores_after_live e st req res _ _ _ Hopt Hai Hskip Ha Hs Hlive).
  rewrite Hbody. cbv zeta.
  split; [|split]; intros Hn.
  - destruct (Z.ltb_spec 2000 (n + 1)); [lia|].
    destruct (Z.ltb_spec 1000 (Z.min n 2000 + 1)); [lia|]. eauto.
  - destruct (Z.ltb_spec 2000 (n + 1)); [lia|].
    destruct (Z.ltb_spec 1000 (Z.min n 2000 + 1)); [|lia]. eauto.
  - destruct (Z.ltb_spec 2000 (n + 1)); [|lia]. eauto.
Qed.

Lemma ai_routes_share_the_standard_ceiling_witness :
  exists st',
    before_tagging Samples.noon
      (session Samples.empty_analysis fresh Samples.idle [ Samples.noon ])
      Samples.empty_analysis fresh = inr st'.
Proof.
  destruct (ai_routes_share_the_standard_ceiling Samples.empty_analysis fresh
              Samples.noon [] Samples.noon eq_refl eq_refl eq_refl eq_refl)
    as (Hadmit & _ & _).
  { repeat constructor. }
  apply Hadmit. simpl. lia.
Defined.

(* ===================================================================== *)
(** ** The simulated AI endpoints *)
(* ===================================================================== *)

Lemma get_own props k v : own_property props k = Some v -> get props k = v.
Proof. intros H. unfold get. now rewrite H. Qed.

Lemma get_missing props k :
  own_property props k = None -> get props k = object_prototype_get k.
Proof. intros H. unfold get. now rewrite H. Qed.

Lemma includes_value_spec xs v :
  includes_value xs v = true <-> exists s, v = JStr s /\ In s xs.
Proof.
  destruct v; simpl; try (split; [discriminate | intros (s' & Hs & _); discriminate]).
  rewrite existsb_eqb_In. split.
  - intros Hin. eauto.
  - intros (s' & Hs & Hin). now injection Hs as ->.
Qed.

Lemma supported_type_truthy s :
  In s supportedAnalysisTypes -> truthy (JStr s) = true.
Proof.
  simpl. intros H. repeat destruct H as [<- | H]; try reflexivity. destruct H.
Qed.

Lemma supported_workflow_truthy s :
  In s supportedWorkflows -> truthy (JStr s) = true.
Proof.
  simpl. intros H. repeat destruct H as [<- | H]; try reflexivity. destruct H.
Qed.

(** The guard of the analysis handler lets exactly the valid bodies
    through. *)
Lemma analysis_guard props :
  negb (truthy (get props "software_id"))
  || negb (truthy (get props "analysis_type"))
  || negb (includes_value supportedAnalysisTypes (get props "analysis_type"))
  = false
  <-> valid_analysis_request props.
Proof.
  unfold valid_analysis_request. split.
  - intros Hg. apply orb_false_iff in Hg as [Hg Hinc].
    apply orb_false_iff in Hg as [Hid _].
    apply negb_false_iff in Hid, Hinc.
    apply includes_value_spec in Hinc as (s & Hs & Hin).
    destruct (own_property props "software_id") as [id|] eqn:Hoid.
    + rewrite (get_own _ _ _ Hoid) in Hid.
      destruct (own_property props "analysis_type") as [ty|] eqn:Hoty.
      * rewrite (get_own _ _ _ Hoty) in Hs. subst ty. eauto 6.
      * rewrite (get_missing _ _ Hoty) in Hs. discriminate Hs.
    + rewrite (get_missing _ _ Hoid) in Hid. discriminate Hid.
  - intros (id & s & Hoid & Hid & Hoty & Hin).
    rewrite (get_own _ _ _ Hoid), (get_own _ _ _ Hoty), Hid.
    rewrite (supported_type_truthy _ Hin). cbn [negb orb].
    apply negb_false_iff. apply includes_value_spec. eauto.
Qed.

(** X6: the analysis endpoint answers 200 exactly for the valid bodies
    and 400 for every other one; a falsy [software_id] (missing, empty,
    zero, null) is rejected even when the analysis type is supported. *)
Theorem software_analysis_decision e req ctx res :
  statusCode res = 200 ->
  let r := software_analysis e req ctx res in
  (valid_analysis_request (body req) -> statusCode r = 200) /\
  (~ valid_analysis_request (body req) ->
   statusCode r = 400 /\
   exists b, sent_json r = Some b /\ field b "error" = JStr "Invalid parameters").
Proof.
  intros Hok. unfold software_analysis.
  destruct (negb (truthy (get (body req) "software_id"))
            || negb (truthy (get (body req) "analysis_type"))
            || negb (includes_value supportedAnalysisTypes
                       (get (body req) "analysis_type"))) eqn:Hg.
  - split.
    + intros Hvalid. apply analysis_guard in Hvalid. congruence.
    + intros _. split; [reflexivity|]. eexists. split; reflexivity.
  - split.
    + intros _. exact Hok.
    + intros Hinvalid. apply analysis_guard in Hg. contradiction.
Qed.

Lemma software_analysis_decision_witness :
  let zero_id :=
    {| method := POST;
       path := [ "api"; "ai"; "software-analysis" ];
       originalUrl := "/api/ai/software-analysis";
       headers := ∅;
       ip := Samples.client_ip;
       body := [ ("software_id", JInt 0); ("analysis_type", JStr "security") ];
       bodyError := None |} in
  statusCode (software_analysis Samples.noon zero_id
                (tagging Samples.noon zero_id) fresh) = 400.
Proof.
  intros zero_id.
  destruct (software_analysis_decision Samples.noon zero_id
              (tagging Samples.noon zero_id) fresh eq_refl) as (_ & Hreject).
  apply Hreject. intros (id & s & Hid & Htruthy & _).
  injection Hid as <-. discriminate Htruthy.
Defined.

(** X7: an accepted analysis request gets its [software_id] and
    [analysis_type] back unchanged, the request identifier of the chain
    in [metadata.request_id], and as [ai_model] whatever truthy value
    it supplied (the list of supported models is not consulted) or
    "gpt-4" when it supplied none or a falsy one. *)
Theorem software_analysis_echo e req ctx res id s :
  own_property (body req) "software_id" = Some id ->
  truthy id = true ->
  own_property (body req) "analysis_type" = Some (JStr s) ->
  In s supportedAnalysisTypes ->
  exists b,
    sent_json (software_analysis e req ctx res) = Some b /\
    field b "software_id" = id /\
    field b "analysis_type" = JStr s /\
    supplied_or (body req) "ai_model" (JStr "gpt-4") (field b "ai_model") /\
    field (field b "metadata") "request_id" = JStr (requestId ctx).
Proof.
  intros Hoid Hid Hoty Hin.
  assert (Hg : valid_analysis_request (body req)) by (exists id, s; auto).
  apply analysis_guard in Hg. unfold software_analysis. rewrite Hg.
  rewrite (get_own _ _ _ Hoid), (get_own _ _ _ Hoty).
  eexists. split; [reflexivity|].
  split; [reflexivity|]. split; [reflexivity|]. split; [|reflexivity].
  unfold supplied_or, field, get. cbn [own_property String.eqb Ascii.eqb Bool.eqb].
  unfold js_or, get.
  destruct (own_property (body req) "ai_model") as [m|]; [|reflexivity].
  now destruct (truthy m).
Qed.

Lemma software_analysis_echo_witness :
  let unlisted_model :=
    {| method := POST;
       path := [ "api"; "ai"; "software-analysis" ];
       originalUrl := "/api/ai/software-analysis";
       headers := ∅;
       ip := Samples.client_ip;
       body := [ ("software_id", JStr "crm"); ("analysis_type", JStr "usage");
                 ("ai_model", JStr "mistral-7b") ];
       bodyError := None |} in
  exists b,
    sent_json (software_analysis Samples.noon unlisted_model
                 (tagging Samples.noon unlisted_model) fresh) = Some b /\
    field b "ai_model" = JStr "mistral-7b".
Proof.
  intros unlisted_model.
  destruct (software_analysis_echo Samples.noon unlisted_model
              (tagging Samples.noon unlisted_model) fresh (JStr "crm") "usage"
              eq_refl eq_refl eq_refl) as (b & Hb & _ & _ & Hmodel & _).
  { simpl. auto 10. }
  exists b. split; [exact Hb | exact Hmodel].
Defined.

(** Settles a [supplied_or] goal for the input named [k]. *)
Ltac supplied req k :=
  unfold supplied_or, js_or, field, get;
  let x := fresh "x" in
  destruct (own_property (body req) k) as [x|];
  [destruct (truthy x)|]; reflexivity.

(** X8: the three scores of an accepted analysis are numbers between 0
    and 100 whenever the random draws are in [0, 1). *)
Theorem software_analysis_scores e req ctx res :
  valid_analysis_request (body req) ->
  unit_draws e ->
  exists b,
    sent_json (software_analysis e req ctx res) = Some b /\
    in_range 0 100 (field (field b "analysis") "performance_score") /\
    in_range 0 100 (field (field b "analysis") "security_score") /\
    in_range 0 100 (field (field b "analysis") "optimization_potential").
Proof.
  intros Hvalid Hdraws. apply analysis_guard in Hvalid.
  unfold software_analysis. rewrite Hvalid.
  eexists. split; [reflexivity|].
  pose proof (Hdraws 1%nat) as [? ?]. pose proof (Hdraws 2%nat) as [? ?].
  pose proof (Hdraws 3%nat) as [? ?].
  repeat split; (eexists; split; [reflexivity|]; split; lra).
Qed.

Lemma software_analysis_scores_witness :
  let r := snd (app embedded_routes Samples.noon Samples.idle
                    {| method := POST;
                       path := [ "api"; "ai"; "software-analysis" ];
                       originalUrl := "/api/ai/software-analysis";
                       headers := ∅;
                       ip := Samples.client_ip;
                       body := [ ("software_id", JStr "crm");
                                 ("analysis_type", JStr "usage") ];
                       bodyError := None |} fresh) in
  exists b,
    sent_json r = Some b /\
    in_range 0 100 (field (field b "analysis") "performance_score").
Proof.
  set (req := {| method := POST;
                 path := [ "api"; "ai"; "software-analysis" ];
                 originalUrl := "/api/ai/software-analysis";
                 headers := ∅;
                 ip := Samples.client_ip;
                 body := [ ("software_id", JStr "crm");
                           ("analysis_type", JStr "usage") ];
                 bodyError := None |}).
  destruct (software_analysis_scores Samples.noon req
              (tagging Samples.noon req)
              (apiHeaders (tagging Samples.noon req) fresh))
    as (b & Hb & Hscore & _).
  - exists (JStr "crm"), "usage". simpl. auto 10.
  - intros k. simpl. split; [discriminate | reflexivity].
  - exists b. split; [exact Hb | exact Hscore].
Defined.

(** The guard of the workflow handler. *)
Lemma workflow_guard props :
  negb (truthy (get props "workflow_type"))
  || negb (includes_value supportedWorkflows (get props "workflow_type"))
  = false
  <-> valid_workflow_request props.
Proof.
  unfold valid_workflow_request. split.
  - intros Hg. apply orb_false_iff in Hg as [_ Hinc].
    apply negb_false_iff in Hinc.
    apply includes_value_spec in Hinc as (s & Hs & Hin).
    destruct (own_property props "workflow_type") as [ty|] eqn:Hoty.
    + rewrite (get_own _ _ _ Hoty) in Hs. subst ty. eauto.
    + rewrite (get_missing _ _ Hoty) in Hs. discriminate Hs.
  - intros (s & Hoty & Hin).
    rewrite (get_own _ _ _ Hoty), (supported_workflow_truthy _ Hin).
    cbn [negb orb]. apply negb_false_iff. apply includes_value_spec. eauto.
Qed.

(** X9: the workflow endpoint answers 200 exactly when [workflow_type]
    is one of the six supported strings; every other body is answered
    400 with the error "Invalid workflow type" and the six names. *)
Theorem automation_workflow_decision e req res :
  statusCode res = 200 ->
  let r := automation_workflow e req res in
  (valid_workflow_request (body req) -> statusCode r = 200) /\
  (~ valid_workflow_request (body req) ->
   statusCode r = 400 /\
   exists b,
     sent_json r = Some b /\
     field b "error" = JStr "Invalid workflow type" /\
     field b "supportedTypes"
       = JArr [ JStr "deployment_automation"; JStr "monitoring_automation";
                JStr "security_automation"; JStr "performance_optimization";
                JStr "resource_management"; JStr "incident_response" ]).
Proof.
  intros Hok. unfold automation_workflow.
  destruct (negb (truthy (get (body req) "workflow_type"))
            || negb (includes_value supportedWorkflows
                       (get (body req) "workflow_type"))) eqn:Hg.
  - split.
    + intros Hvalid. apply workflow_guard in Hvalid. congruence.
    + intros _. split; [reflexivity|]. eexists. split; [reflexivity|].
      split; reflexivity.
  - split.
    + intros _. exact Hok.
    + intros Hinvalid. apply workflow_guard in Hg. contradiction.
Qed.

Lemma automation_workflow_decision_witness :
  statusCode (automation_workflow Samples.noon Samples.empty_analysis fresh)
    = 400.
Proof.
  destruct (automation_workflow_decision Samples.noon Samples.empty_analysis
              fresh eq_refl) as (_ & Hreject).
  apply Hreject. intros (s & Hs & _). discriminate Hs.
Defined.

(** X10: a created workflow carries the requested type, an identifier
    made of "workflow_" and the clock reading, and for [ai_guidance],
    [trigger_conditions] and the parameters of its first step the
    supplied value when truthy and the built-in default otherwise. *)
Theorem automation_workflow_defaults e req res s :
  own_property (body req) "workflow_type" = Some (JStr s) ->
  In s supportedWorkflows ->
  exists b first rest,
    sent_json (automation_workflow e req res) = Some b /\
    field (field b "workflow") "type" = JStr s /\
    field (field b "workflow") "id" = JStr ("workflow_" ++ decimal (now e)) /\
    supplied_or (body req) "ai_guidance" (JStr "standard")
      (field (field b "workflow") "ai_guidance") /\
    supplied_or (body req) "trigger_conditions" default_trigger_conditions
      (field (field b "workflow") "trigger_conditions") /\
    field (field b "workflow") "steps" = JArr (first :: rest) /\
    supplied_or (body req) "parameters" (JObj []) (field first "parameters").
Proof.
  intros Hoty Hin.
  assert (Hg : valid_workflow_request (body req)) by (exists s; auto).
  apply workflow_guard in Hg. unfold automation_workflow. rewrite Hg.
  rewrite (get_own _ _ _ Hoty).
  eexists _, _, _. split; [reflexivity|].
  split; [reflexivity|]. split; [reflexivity|].
  split; [supplied req "ai_guidance"|].
  split; [supplied req "trigger_conditions"|].
  split; [reflexivity|].
  supplied req "parameters".
Qed.

Lemma automation_workflow_defaults_witness :
  let req :=
    {| method := POST;
       path := [ "api"; "ai"; "automation-workflow" ];
       originalUrl := "/api/ai/automation-workflow";
       headers := ∅;
       ip := Samples.client_ip;
       body := [ ("workflow_type", JStr "incident_response");
                 ("ai_guidance", JStr "") ];
       bodyError := None |} in
  exists b,
    sent_json (automation_workflow Samples.noon req fresh) = Some b /\
    field (field b "workflow") "ai_guidance" = JStr "standard" /\
    field (field b "workflow") "id" = JStr "workflow_1730000000000".
Proof.
  intros req.
  destruct (automation_workflow_defaults Samples.noon req fresh
              "incident_response" eq_refl)
    as (b & first & rest & Hb & _ & Hid & Hguide & _).
  { simpl. auto 10. }
  exists b. split; [exact Hb|]. split; [exact Hguide | exact Hid].
Defined.

(** X11: the optimization endpoint never rejects: whatever the body, it
    leaves the status alone and fills [strategy], [current_metrics] and
    [goals] with the supplied values when truthy and with its built-in
    defaults otherwise. *)
Theorem performance_optimization_defaults e req res :
  statusCode (performance_optimization e req res) = statusCode res /\
  exists b,
    sent_json (performance_optimization e req res) = Some b /\
    supplied_or (body req) "optimization_strategy" (JStr "intelligent_adaptive")
      (field b "strategy") /\
    supplied_or (body req) "system_metrics" default_metrics
      (field b "current_metrics") /\
    supplied_or (body req) "performance_goals" default_goals (field b "goals").
Proof.
  split; [reflexivity|]. unfold performance_optimization.
  eexists. split; [reflexivity|].
  split; [supplied req "optimization_strategy"|].
  split; [supplied req "system_metrics" | supplied req "performance_goals"].
Qed.

(** X12: the risk score of a security assessment is a whole number from
    10 to 49 whenever the draw is in [0, 1), and the scan type is
    "ai_enhanced" exactly when [ai_enhanced_scanning] is truthy. *)
Theorem security_assessment_score e req res :
  unit_draws e ->
  exists b score,
    sent_json (security_assessment e req res) = Some b /\
    field b "overall_risk_score" = JInt score /\
    10 <= score <= 49 /\
    field b "scan_type"
      = JStr (if truthy (get (body req) "ai_enhanced_scanning")
              then "ai_enhanced" else "standard").
Proof.
  intros Hdraws. destruct (Hdraws 1%nat) as [Hlo Hhi].
  unfold security_assessment. eexists _, _.
  split; [reflexivity|]. split; [reflexivity|]. split; [|reflexivity].
  set (x := (random e 1 * 40)%Q).
  assert (Hx0 : (0 <= x)%Q) by (subst x; lra).
  assert (Hx40 : (x < 40)%Q) by (subst x; lra).
  pose proof (Qfloor_le x) as Hfl. pose proof (Qlt_floor x) as Hfu.
  assert (H0 : (inject_Z 0 < inject_Z (Qfloor x + 1))%Q)
    by (apply Qle_lt_trans with x; [exact Hx0 | exact Hfu]).
  assert (H40 : (inject_Z (Qfloor x) < inject_Z 40)%Q)
    by (apply Qle_lt_trans with x; [exact Hfl | exact Hx40]).
  rewrite <- Zlt_Qlt in H0, H40. lia.
Qed.

Lemma security_assessment_score_witness :
  exists b score,
    sent_json (security_assessment Samples.noon Samples.empty_analysis fresh)
      = Some b /\
    field b "overall_risk_score" = JInt score /\
    10 <= score <= 49.
Proof.
  destruct (security_assessment_score Samples.noon Samples.empty_analysis fresh)
    as (b & score & Hb & Hscore & Hrange & _).
  { intros k. simpl. split; [discriminate | reflexivity]. }
  exists b, score. split; [exact Hb|]. split; [exact Hscore | exact Hrange].
Defined.

(** X13: the monitoring endpoint reports CPU usage between 20 and 50,
    memory usage between 15 and 40, response time between 100 and 150
    and throughput between 800 and 1000 whenever the draws are in
    [0, 1). *)
Theorem intelligent_monitoring_ranges e res :
  unit_draws e ->
  exists b,
    sent_json (intelligent_monitoring e res) = Some b /\
    in_range 20 50 (field (field b "performance_metrics") "cpu_usage") /\
    in_range 15 40 (field (field b "performance_metrics") "memory_usage") /\
    in_range 100 150 (field (field b "performance_metrics") "response_time") /\
    in_range 800 1000 (field (field b "performance_metrics") "throughput").
Proof.
  intros Hdraws. unfold intelligent_monitoring.
  eexists. split; [reflexivity|].
  pose proof (Hdraws 1%nat) as [? ?]. pose proof (Hdraws 2%nat) as [? ?].
  pose proof (Hdraws 3%nat) as [? ?]. pose proof (Hdraws 4%nat) as [? ?].
  repeat split; (eexists; split; [reflexivity|]; split; lra).
Qed.

Lemma intelligent_monitoring_ranges_witness :
  exists b,
    sent_json (intelligent_monitoring Samples.noon fresh) = Some b /\
    in_range 20 50 (field (field b "performance_metrics") "cpu_usage").
Proof.
  destruct (intelligent_monitoring_ranges Samples.noon fresh)
    as (b & Hb & Hcpu & _).
  { intros k. simpl. split; [discriminate | reflexivity]. }
  exists b. split; [exact Hb | exact Hcpu].
Defined.

(* ===================================================================== *)
(** ** The error responder: retry advice *)
(* ===================================================================== *)

(** X14: the retry advice follows the declared status: a status of 500
    or more is marked retryable with "retry_later", a lower one is not
    and gets "check_input".  A failure that declares no status is
    answered 500 and yet marked not retryable with "check_input". *)
Theorem error_responder_retry_advice e err ctx res :
  exists b,
    sent_json (errorHandler e err ctx res) = Some b /\
    (forall s, err_status err = Some s -> 500 <= s ->
       field (field b "ai") "retryable" = JBool true /\
       field (field b "ai") "suggestedAction" = JStr "retry_later") /\
    (forall s, err_status err = Some s -> s < 500 ->
       field (field b "ai") "retryable" = JBool false /\
       field (field b "ai") "suggestedAction" = JStr "check_input") /\
    (err_status err = None ->
       statusCode (errorHandler e err ctx res) = 500 /\
       field (field b "ai") "retryable" = JBool false /\
       field (field b "ai") "suggestedAction" = JStr "check_input").
Proof.
  unfold errorHandler.
  assert (Hside : forall s, err_status err = Some s ->
                            server_side err = (500 <=? s)).
  { intros s Hs. unfold server_side. now rewrite Hs. }
  destruct (node_env_is e "development");
    (eexists; split; [reflexivity|]; split; [|split]).
  all: try (intros s Hs Hge; cbn; rewrite (Hside s Hs);
            destruct (Z.leb_spec 500 s); [|lia]; split; reflexivity).
  all: try (intros s Hs Hlt; cbn; rewrite (Hside s Hs);
            destruct (Z.leb_spec 500 s); [lia|]; split; reflexivity).
  all: intros Hnone; cbn; unfold status_or_500, server_side; rewrite Hnone;
    repeat split; reflexivity.
Qed.

Lemma error_responder_retry_advice_witness :
  exists b,
    sent_json (errorHandler Samples.noon
                 {| err_status := None; err_message := "boom";
                    err_name := "TypeError"; err_stack := None |}
                 None fresh) = Some b /\
    field (field b "ai") "retryable" = JBool false.
Proof.
  destruct (error_responder_retry_advice Samples.noon
              {| err_status := None; err_message := "boom";
                 err_name := "TypeError"; err_stack := None |} None fresh)
    as (b & Hb & _ & _ & Hnone).
  exists b. split; [exact Hb|]. now destruct (Hnone eq_refl) as (_ & Hretry & _).
Defined.

(* ===================================================================== *)
(** ** Identifiers with a numeric prefix *)
(* ===================================================================== *)

Lemma digit_value_pretty d :
  (d < 10)%N -> digit_value (pretty_N_char d) = Some (Z.of_N d).
Proof.
  intros Hd.
  assert (d = 0 \/ d = 1 \/ d = 2 \/ d = 3 \/ d = 4 \/ d = 5 \/ d = 6 \/
          d = 7 \/ d = 8 \/ d = 9)%N as Hcases by lia.
  repeat destruct Hcases as [-> | Hcases]; try reflexivity. now subst.
Qed.

Lemma pretty_char_plain d :
  (d < 10)%N ->
  is_whitespace (pretty_N_char d) = false /\
  Ascii.eqb (pretty_N_char d) "-" = false /\
  Ascii.eqb (pretty_N_char d) "+" = false /\
  Ascii.eqb (pretty_N_char d) "x" = false /\
  Ascii.eqb (pretty_N_char d) "X" = false /\
  (d <> 0%N -> Ascii.eqb (pretty_N_char d) "0" = false).
Proof.
  intros Hd.
  assert (d = 0 \/ d = 1 \/ d = 2 \/ d = 3 \/ d = 4 \/ d = 5 \/ d = 6 \/
          d = 7 \/ d = 8 \/ d = 9)%N as Hcases by lia.
  repeat destruct Hcases as [-> | Hcases]; subst;
    repeat split; try reflexivity; intros H; now contradiction H.
Qed.

Lemma render_app ds ds' t : render (ds ++ ds') t = render ds (render ds' t).
Proof. induction ds as [|d ds IH]; simpl; [reflexivity | now rewrite IH]. Qed.

Lemma render_append ds t : (render ds "" ++ t)%string = render ds t.
Proof.
  induction ds as [|d ds IH]; [reflexivity|].
  simpl render. rewrite <- IH. reflexivity.
Qed.

(** The decimal rendering of a positive number is a non-empty run of
    digits whose value is the number. *)
Lemma pretty_go_render x :
  (0 < x)%N ->
  exists ds,
    ds <> [] /\ Forall (fun d => (d < 10)%N) ds /\
    (forall s, pretty_N_go x s = render ds s) /\
    value ds = Z.of_N x.
Proof.
  induction (N.lt_wf_0 x) as [x _ IH]. intros Hpos.
  assert (Hmod : (x mod 10 < 10)%N) by (apply N.mod_lt; lia).
  destruct (N.eq_dec (x / 10)%N 0%N) as [Hsmall | Hbig].
  - exists [ (x mod 10)%N ]. split; [discriminate|]. split; [now constructor|].
    split.
    + intros s. rewrite pretty_N_go_step by exact Hpos.
      now rewrite Hsmall, pretty_N_go_0.
    + unfold value. cbn [fold_left].
      assert (Hx : (x = 10 * (x / 10) + x mod 10)%N) by (apply N.div_mod; lia).
      rewrite Hsmall in Hx. clear - Hx. set (m := (x mod 10)%N) in *. lia.
  - destruct (IH (x / 10)%N) as (ds & Hne & Hall & Hgo & Hval).
    { apply N.div_lt; lia. }
    { now apply N.neq_0_lt_0. }
    exists (ds ++ [ (x mod 10)%N ])%list. split; [now destruct ds|].
    split; [apply Forall_app; split; [exact Hall | now constructor]|].
    split.
    + intros s. rewrite pretty_N_go_step by exact Hpos.
      now rewrite Hgo, render_app.
    + unfold value in *. rewrite fold_left_app. cbn [fold_left]. rewrite Hval.
      assert (Hx : (x = 10 * (x / 10) + x mod 10)%N) by (apply N.div_mod; lia).
      clear - Hx. set (q := (x / 10)%N) in *. set (m := (x mod 10)%N) in *. lia.
Qed.

Lemma parse_digits_stops t acc : stops_number t -> parse_digits 10 t acc = acc.
Proof.
  destruct t as [|c t]; simpl; [reflexivity|].
  destruct (digit_value c) as [d|]; [|reflexivity].
  intros Hd. destruct (Z.ltb_spec d 10); [lia | reflexivity].
Qed.

Lemma parse_digits_render ds : forall t acc,
  Forall (fun d => (d < 10)%N) ds ->
  stops_number t ->
  parse_digits 10 (render ds t) acc =
    match ds with
    | [] => acc
    | _ => Some (fold_left (fun a d => 10 * a + Z.of_N d) ds
                   (match acc with Some a => a | None => 0 end))
    end.
Proof.
  induction ds as [|d ds IH]; intros t acc Hall Hstop.
  - simpl. now apply parse_digits_stops.
  - inversion Hall as [|? ? Hd Hrest]; subst. simpl render.
    cbn [parse_digits]. rewrite (digit_value_pretty d Hd).
    destruct (Z.ltb_spec (Z.of_N d) 10); [|lia].
    rewrite (IH t _ Hrest Hstop). simpl fold_left.
    now destruct ds.
Qed.

(** [parseInt] on a positive decimal numeral followed by anything that
    is not a digit yields the number. *)
Lemma parseInt_numeric_prefix n t :
  0 < n -> stops_number t -> parseInt (decimal n ++ t) = JInt n.
Proof.
  intros Hn Hstop. destruct n as [|p|p]; try lia.
  unfold decimal, pretty, pretty_Z, pretty, pretty_positive, pretty, pretty_N.
  destruct (decide (N.pos p = 0%N)) as [Hz|_]; [discriminate Hz|].
  destruct (pretty_go_render (N.pos p)) as (ds & Hne & Hall & Hgo & Hval);
    [lia|].
  rewrite Hgo, render_append.
  assert (Hparse : parse_digits 10 (render ds t) None = Some (Z.pos p)).
  { rewrite (parse_digits_render ds t None Hall Hstop).
    destruct ds; [contradiction|]. f_equal. exact Hval. }
  destruct ds as [|d ds]; [contradiction|].
  inversion Hall as [|? ? Hd Hrest]; subst.
  destruct (pretty_char_plain d Hd) as (Hws & Hminus & Hplus & _ & _ & Hzero).
  unfold parseInt. simpl render in *. cbn [trim_start]. rewrite Hws.
  cbn [strip_sign]. rewrite Hminus, Hplus.
  assert (Hradix : strip_radix (String (pretty_N_char d) (render ds t))
                   = (10, String (pretty_N_char d) (render ds t))).
  { unfold strip_radix. destruct ds as [|d' ds]; simpl render.
    - destruct t as [|c t]; [reflexivity|].
      rewrite Hzero; [reflexivity|].
      intros ->. unfold value in Hval. simpl in Hval. lia.
    - inversion Hrest as [|? ? Hd' _]; subst.
      destruct (pretty_char_plain d' Hd') as (_ & _ & _ & Hx & HX & _).
      rewrite Hx, HX. now rewrite andb_false_r. }
  rewrite Hradix, Hparse. reflexivity.
Qed.

(** X15: a segment made of a positive decimal numeral (within the range
    where doubles are exact) followed by anything that does not start
    with a digit is answered like the numeral alone: [data.id] is the
    number and the trailing characters are ignored. *)
Theorem get_by_id_reads_numeric_prefix n t res :
  0 < n <= max_exact ->
  stops_number t ->
  exists data,
    sent_json (get_service_by_id (decimal n ++ t) res)
      = Some (JObj [ ("message", JStr "Service retrieved successfully");
                     ("data", data) ]) /\
    field data "id" = JInt n.
Proof.
  intros [Hpos _] Hstop. eexists. split; [reflexivity|].
  unfold service, field, get. cbn [own_property String.eqb Ascii.eqb Bool.eqb].
  now apply parseInt_numeric_prefix.
Qed.

Lemma get_by_id_reads_numeric_prefix_witness :
  exists data,
    sent_json (get_service_by_id "12abc" fresh)
      = Some (JObj [ ("message", JStr "Service retrieved successfully");
                     ("data", data) ]) /\
    field data "id" = JInt 12.
Proof.
  apply (get_by_id_reads_numeric_prefix 12 "abc" fresh).
  - unfold max_exact. lia.
  - vm_compute. discriminate.
Defined.

(* ===================================================================== *)
(** ** The category mapping against the listing *)
(* ===================================================================== *)

Lemma listed n entry :
  (n < length services)%nat -> nth n services JNull = entry -> In entry services.
Proof. intros Hn <-. now apply nth_In. Qed.

(** X16: every entry a category lookup returns is backed by the
    listing: the catalog has an entry with the same identifier, the
    same category and the same price.  The converse fails from entry 7
    on: a catalog entry is found under its own category exactly when
    its identifier is at most 6. *)
Theorem category_lookup_against_listing :
  (forall c entries entry,
     services_in_category c = JArr entries ->
     In entry entries ->
     exists catalogued,
       In catalogued services /\
       id_of catalogued = id_of entry /\
       category_of catalogued = category_of entry /\
       field catalogued "price" = field entry "price") /\
  (forall catalogued k i,
     In catalogued services ->
     category_of catalogued = JStr k ->
     id_of catalogued = JInt i ->
     (i <= 6 <->
      exists entries entry,
        services_in_category k = JArr entries /\
        In entry entries /\ id_of entry = JInt i)).
Proof.
  split.
  - intros c entries entry.
    unfold services_in_category, get, servicesByCategory. cbn [own_property].
    repeat match goal with
           | |- context [String.eqb ?k (toLowerCase c)] =>
               destruct (String.eqb_spec k (toLowerCase c)) as [_|_]
           end;
      try (cbv [js_or truthy]; intros Heq; injection Heq as <-; intros Hin;
           simpl in Hin; repeat destruct Hin as [<- | Hin]; try destruct Hin;
           first
             [ exists (nth 0 services JNull); split;
               [apply (listed 0); [simpl; lia | reflexivity]|];
               split; [reflexivity|]; split; reflexivity
             | exists (nth 1 services JNull); split;
               [apply (listed 1); [simpl; lia | reflexivity]|];
               split; [reflexivity|]; split; reflexivity
             | exists (nth 2 services JNull); split;
               [apply (listed 2); [simpl; lia | reflexivity]|];
               split; [reflexivity|]; split; reflexivity
             | exists (nth 3 services JNull); split;
               [apply (listed 3); [simpl; lia | reflexivity]|];
               split; [reflexivity|]; split; reflexivity
             | exists (nth 4 services JNull); split;
               [apply (listed 4); [simpl; lia | reflexivity]|];
               split; [reflexivity|]; split; reflexivity
             | exists (nth 5 services JNull); split;
               [apply (listed 5); [simpl; lia | reflexivity]|];
               split; [reflexivity|]; split; reflexivity ]).
    unfold object_prototype_get, js_or.
    repeat match goal with
           | |- context [if ?b then _ else _] => destruct b; simpl
           end;
      intros Heq; try discriminate Heq; injection Heq as <-; intros [].
  - intros catalogued k i Hin Hk Hi. unfold services in Hin.
    simpl in Hin.
    repeat destruct Hin as [<- | Hin]; try destruct Hin;
      vm_compute in Hk; vm_compute in Hi; unfold JInt, inject_Z in *;
      injection Hk as <-; injection Hi as <-;
      (split;
       [ intros Hle;
         first [ lia
               | eexists _, _; split; [reflexivity|];
                 ((split; [left; reflexivity | reflexivity])
                  + (split; [right; left; reflexivity | reflexivity])) ]
       | intros (entries & entry & Hlookup & Hentry & Hid);
         first [ lia
               | vm_compute in Hlookup; injection Hlookup as <-;
                 destruct Hentry ] ]).
Qed.

(* ===================================================================== *)
(** ** The listing: categories and entity tag *)
(* ===================================================================== *)

Lemma same_value_zero_string x v :
  same_value_zero (JStr x) v = true <-> v = JStr x.
Proof.
  destruct v; simpl; try (split; discriminate).
  rewrite String.eqb_eq. split; [intros -> | intros [= ->]]; reflexivity.
Qed.

Lemma set_add_string seen x :
  List.NoDup seen ->
  List.NoDup (set_add seen (JStr x)) /\
  (forall v, In v (set_add seen (JStr x)) <-> In v seen \/ v = JStr x).
Proof.
  intros Hnd. unfold set_add.
  destruct (existsb (same_value_zero (JStr x)) seen) eqn:Hex.
  - apply existsb_exists in Hex as (v & Hin & Hv).
    apply same_value_zero_string in Hv. subst v.
    split; [exact Hnd|]. intros v. split; [auto|]. now intros [?| ->].
  - split.
    + apply List.NoDup_app; [exact Hnd | repeat constructor; now intros [] |].
      intros v Hin [<- | []].
      assert (existsb (same_value_zero (JStr x)) seen = true); [|congruence].
      apply existsb_exists. exists (JStr x). split; [exact Hin|].
      now apply same_value_zero_string.
    + intros v. rewrite in_app_iff. simpl. intuition (subst; auto).
Qed.

(** Spreading a set built from strings keeps each of them once. *)
Lemma spread_set_strings xs : forall seen,
  List.NoDup seen ->
  List.NoDup (fold_left set_add (map JStr xs) seen) /\
  (forall v, In v (fold_left set_add (map JStr xs) seen)
             <-> In v seen \/ In v (map JStr xs)).
Proof.
  induction xs as [|x xs IH]; intros seen Hnd; simpl.
  - split; [exact Hnd|]. intros v. tauto.
  - destruct (set_add_string seen x Hnd) as [Hnd' Hin'].
    destruct (IH _ Hnd') as [Hnd'' Hin'']. split; [exact Hnd''|].
    intros v. rewrite Hin'', Hin'. intuition (subst; auto).
Qed.

(** X17: the [categories] of the listing are exactly the categories of
    its entries: every entry's category is listed, and every listed
    name is the category of some entry. *)
Theorem listed_categories_cover_entries e res v :
  In v (listed_categories (list_services e res)) <->
  exists entry,
    In entry (listed_entries (list_services e res)) /\ category_of entry = v.
Proof.
  change (listed_categories (list_services e res))
    with (spread_set (map category_of services)).
  change (listed_entries (list_services e res)) with services.
  assert (Hcats : exists names, map category_of services = map JStr names).
  { eexists [ _; _; _; _; _; _; _; _; _; _ ]. reflexivity. }
  destruct Hcats as [names Hnames]. unfold spread_set. rewrite Hnames.
  destruct (spread_set_strings names [] (List.NoDup_nil _)) as [_ Hin].
  rewrite Hin, <- Hnames, in_map_iff. simpl. split.
  - intros [[] | (entry & Hcat & Hentry)]. eauto.
  - intros (entry & Hentry & Hcat). right. eauto.
Qed.

Lemma append_length (a b : string) :
  String.length (a ++ b) = (String.length a + String.length b)%nat.
Proof. induction a as [|c a IH]; simpl; [reflexivity | now rewrite IH]. Qed.

Lemma append_cancel_r (a b q : string) :
  (a ++ q)%string = (b ++ q)%string -> a = b.
Proof.
  revert b. induction a as [|c a IH]; intros [|c' b] H.
  - reflexivity.
  - apply (f_equal String.length) in H.
    rewrite !append_length in H. simpl in H. lia.
  - apply (f_equal String.length) in H.
    rewrite !append_length in H. simpl in H. lia.
  - simpl in H. injection H as -> H. f_equal. now apply IH.
Qed.

Lemma list_services_etag e res :
  resHeaders (list_services e res) !! "ETag"
    = Some (dquote ++ decimal (now e) ++ dquote)%string.
Proof.
  unfold list_services, set. simpl fold_left.
  rewrite json_keeps_header by discriminate.
  unfold setHeader. simpl. apply lookup_insert_eq.
Qed.

(** X18: the entity tag of a listing is the clock reading in quotes, so
    two listings carry the same tag only when they were produced at the
    same millisecond. *)
Theorem list_services_etag_tracks_clock e1 e2 res1 res2 :
  resHeaders (list_services e1 res1) !! "ETag"
    = resHeaders (list_services e2 res2) !! "ETag" ->
  now e1 = now e2.
Proof.
  rewrite !list_services_etag. intros H. injection H as H.
  change (decimal (now e1) ++ dquote = decimal (now e2) ++ dquote)%string in H.
  apply append_cancel_r in H. apply (inj pretty). exact H.
Qed.

Lemma list_services_etag_tracks_clock_witness :
  now Samples.noon = now Samples.in_production.
Proof.
  apply (list_services_etag_tracks_clock Samples.noon Samples.in_production
           fresh fresh).
  reflexivity.
Defined.

(* ===================================================================== *)
(** ** Startup *)
(* ===================================================================== *)


(** X20: the API description served under /api-docs is always the
    minimal stub, whatever [swagger.json] files exist: both attempts
    read the [path] binding before its declaration has run, so both
    throw and the innermost fallback is taken.  With the binding
    initialized the same loader serves the file next to the module. *)
Theorem swagger_document_is_the_stub dirname cwd require :
  Startup.swaggerDocument dirname cwd require = Startup.stub /\
  (forall p doc,
     require (Startup.join p dirname "swagger.json") = Some doc ->
     Startup.load_swagger (Startup.Initialized p) dirname cwd require = doc).
Proof.
  split; [reflexivity|].
  intros p doc Hfile. unfold Startup.load_swagger, Startup.attempt.
  now rewrite Hfile.
Qed.

(* ===================================================================== *)
(** ** Headers the handlers leave alone *)
(* ===================================================================== *)

(** X21: the analysis endpoint and the catalog router write none of the
    nine headers the metadata middleware sets: each of them is on the
    response a handler sends with the value it had when the handler was
    entered. *)
Theorem handlers_keep_metadata_headers e req ctx res r k :
  embedded_routes e req ctx res = Sent r ->
  In k metadata_headers ->
  resHeaders r !! k = resHeaders res !! k.
Proof.
  intros Hsent Hk.
  assert (Hne : k <> "Content-Type" /\ "Cache-Control" <> k /\ "Pragma" <> k /\
                "Expires" <> k /\ "ETag" <> k).
  { unfold metadata_headers in Hk. simpl in Hk.
    repeat destruct Hk as [Hk | Hk]; try contradiction; subst k;
      repeat split; discriminate. }
  destruct Hne as (Hct & Hcc & Hp & Hex & Het).
  revert Hsent. by_handler;
    rewrite ?json_keeps_header, ?status_keeps_headers, ?setHeader_other
      by assumption;
    reflexivity.
Qed.

Lemma handlers_keep_metadata_headers_witness :
  resHeaders (snd (app embedded_routes Samples.noon Samples.idle
                       Samples.list_request fresh)) !! "X-Frame-Options"
    = Some "DENY".
Proof.
  pose proof (handlers_keep_metadata_headers Samples.noon Samples.list_request
                (tagging Samples.noon Samples.list_request)
                (apiHeaders (tagging Samples.noon Samples.list_request) fresh)
                (list_services Samples.noon
                   (apiHeaders (tagging Samples.noon Samples.list_request) fresh))
                "X-Frame-Options" eq_refl) as Hkept.
  change (snd (app embedded_routes Samples.noon Samples.idle
                   Samples.list_request fresh))
    with (list_services Samples.noon
            (apiHeaders (tagging Samples.noon Samples.list_request) fresh)).
  rewrite Hkept.
  - reflexivity.
  - unfold metadata_headers. simpl. tauto.
Defined.
